(** * Analytics report update manager (cvat/apps/analytics_report/report/create.py)

    A shallow embedding of [JobAnalyticsReportUpdateManager]: the debounced
    scheduler of report updates, the on-demand check jobs and the
    staleness-checked computation of job, task and project reports.

    Conventions.
    - Instants ([datetime]) and durations ([timedelta]) are integers counting
      microseconds, the resolution of Python's [datetime]; an aware instant is
      its distance from the Unix epoch.  Arithmetic on them is exact in
      Python, so [Z] with [+], [-], floor division and comparison is the
      model.
    - A Python exception is a value of [exn]; a call that may raise returns
      [result].
    - Dictionaries are [gmap]s, sets are [gset]s. *)

From Stdlib Require Import ZArith String Ascii List Lia.
From stdpp Require Import base option list gmap strings pretty.

Open Scope Z_scope.

(** ** Exceptions and results *)

Inductive exn : Type :=
| ValueError
| AttributeError
| ZeroDivisionError
| KeyError (key : string)
| UnboundLocalError (name : string)
| CalculateError (what : string).

Inductive result (A : Type) : Type :=
| Ok (a : A)
| Raise (e : exn).
Arguments Ok {A} a.
Arguments Raise {A} e.

Definition bind_result {A B} (r : result A) (k : A → result B) : result B :=
  match r with
  | Ok a => k a
  | Raise e => Raise e
  end.

#[global] Instance result_ret : MRet result := λ A a, Ok a.
#[global] Instance result_bind : MBind result := λ A B k r, bind_result r k.

(** ** Strings *)

(** [strip_prefix p s] is the rest of [s] after [p] when [s] starts with [p]. *)
Fixpoint strip_prefix (p s : string) : option string :=
  match p, s with
  | EmptyString, _ => Some s
  | String a p', String b s' =>
      if Ascii.eqb a b then strip_prefix p' s' else None
  | String _ _, EmptyString => None
  end.

(** [str.startswith] *)
Definition startswith (s p : string) : bool :=
  match strip_prefix p s with Some _ => true | None => false end.

(** What follows the first occurrence of [sep] in [s], if there is one. *)
Fixpoint after_first (sep s : string) : option string :=
  match strip_prefix sep s with
  | Some rest => Some rest
  | None =>
      match s with
      | EmptyString => None
      | String _ s' => after_first sep s'
      end
  end.

(** [s.split(sep, maxsplit=1)[-1]] for a non-empty [sep]: the text after the
    first occurrence of [sep], or all of [s] when [sep] does not occur. *)
Definition split_last (sep s : string) : string :=
  match after_first sep s with
  | Some rest => rest
  | None => s
  end.

(** ** Entities

    The rows of the engine's models with their forward relations
    ([job.segment.task], [task.project]).  Reverse relations ([tasks],
    [segment_set], [job_set], [analytics_report]) are queries and live in the
    database below. *)

Record Project : Type := {
  project_id : Z;
  project_updated_date : Z;
}.

Record Task : Type := {
  task_id : Z;
  task_updated_date : Z;
  task_project : option Project;
}.

Record Segment : Type := {
  segment_id : Z;
  segment_task : Task;
}.

Record Job : Type := {
  job_id : Z;
  job_updated_date : Z;
  job_segment : Segment;
}.

(** A Python reference to a model instance of one of the three classes. *)
Inductive Obj : Type :=
| ObjJob (j : Job)
| ObjTask (t : Task)
| ObjProject (p : Project).

Definition obj_id (obj : Obj) : Z :=
  match obj with
  | ObjJob j => job_id j
  | ObjTask t => task_id t
  | ObjProject p => project_id p
  end.

(** ** Reports *)

(** JSON values, the content of the [statistics] column. *)
#[local] Set Warnings "-register-all".
Inductive Json : Type :=
| JNull
| JNum (n : Z)
| JStr (s : string)
| JList (l : list Json)
| JDict (l : list (string * Json)).

(** The dictionary built by [_get_statistics_entry]. *)
Record StatisticsEntry : Type := {
  title : Json;
  description : Json;
  granularity : Json;
  default_view : Json;
  transformations : Json;
  dataseries : Json;
}.

Record AnalyticsReport : Type := {
  created_date : Z;
  statistics : gmap string StatisticsEntry;
}.

(** The [AnalyticsReport] table: at most one row per job, per task and per
    project, found through the one-to-one key it was created with. *)
Record Reports : Type := {
  job_reports : gmap Z AnalyticsReport;
  task_reports : gmap Z AnalyticsReport;
  project_reports : gmap Z AnalyticsReport;
}.

(** [obj.analytics_report], [None] when the entity has no report. *)
Definition analytics_report (db : Reports) (obj : Obj) : option AnalyticsReport :=
  match obj with
  | ObjJob j => job_reports db !! job_id j
  | ObjTask t => task_reports db !! task_id t
  | ObjProject p => project_reports db !! project_id p
  end.

(** ** The job queue *)

(** Keyword arguments of [_check_job_analytics]. *)
Record Kwargs : Type := {
  cvat_job_id : option Z;
  cvat_task_id : option Z;
  cvat_project_id : option Z;
}.

Inductive MetaValue : Type :=
| MetaInt (n : Z)
| MetaStr (s : string).

#[global] Instance MetaValue_eq_dec : EqDecision MetaValue.
Proof. solve_decision. Defined.

(** A job of the analytics queue: [scheduled_time] is set for a job placed
    with [enqueue_at], and unset for a job placed with [enqueue]. *)
Record RqJob : Type := {
  func_kwargs : Kwargs;
  meta : gmap string MetaValue;
  scheduled_time : option Z;
  result_ttl : option Z;
  failure_ttl : option Z;
}.

(** Modelled from the spec: the external queue (rq and rq-scheduler, not part
    of the repository) is a store of jobs by key in which a second enqueue
    under an identical key is ignored, with the primitives [listPending],
    [enqueueAt], [enqueueNow] and [fetch]. *)
Definition insert_job (key : string) (j : RqJob) (q : gmap string RqJob) : gmap string RqJob :=
  match q !! key with
  | Some _ => q
  | None => <[key := j]> q
  end.

Definition is_pending_until (until : Z) (j : RqJob) : bool :=
  match scheduled_time j with
  | Some t => bool_decide (t ≤ until)
  | None => false
  end.

(** [scheduler.get_jobs(until=...)], as the set of the ids of the jobs. *)
Definition get_jobs (q : gmap string RqJob) (until : Z) : gset string :=
  dom (filter (λ kv, is_pending_until until kv.2 = true) q).

(** [scheduler.enqueue_at(time, _check_job_analytics, **kwargs, job_id=key)] *)
Definition enqueue_at (q : gmap string RqJob) (time : Z) (kwargs : Kwargs) (key : string)
  : gmap string RqJob :=
  insert_job key
    {| func_kwargs := kwargs; meta := ∅; scheduled_time := Some time;
       result_ttl := None; failure_ttl := None |} q.

(** [queue.enqueue(_check_job_analytics, **kwargs, job_id=key, meta=...,
    result_ttl=..., failure_ttl=...)] *)
Definition enqueue (q : gmap string RqJob) (kwargs : Kwargs) (key : string)
    (m : gmap string MetaValue) (rttl fttl : Z) : gmap string RqJob :=
  insert_job key
    {| func_kwargs := kwargs; meta := m; scheduled_time := None;
       result_ttl := Some rttl; failure_ttl := Some fttl |} q.

(** [queue.fetch_job(key)] *)
Definition fetch_job (q : gmap string RqJob) (key : string) : option RqJob := q !! key.

(** ** The debounced scheduler *)

Definition _QUEUE_JOB_PREFIX_TASK : string := "update-analytics-report-task-".
Definition _QUEUE_JOB_PREFIX_PROJECT : string := "update-analytics-report-project-".
Definition _RQ_CUSTOM_ANALYTICS_CHECK_JOB_TYPE : string := "custom_analytics_check".
Definition _JOB_RESULT_TTL : Z := 120.

(** [timezone.datetime.min.replace(tzinfo=timezone.utc)]: 0001-01-01T00:00:00Z. *)
Definition datetime_min : Z := -62135596800000000.

Definition _make_queue_job_prefix (obj : Obj) : string :=
  match obj with
  | ObjTask t => _QUEUE_JOB_PREFIX_TASK +:+ pretty (task_id t) +:+ "-"
  | _ => _QUEUE_JOB_PREFIX_PROJECT +:+ pretty (obj_id obj) +:+ "-"
  end.

Definition _make_initial_queue_job_id (obj : Obj) : string :=
  _make_queue_job_prefix obj +:+ "initial".

(** Lines 69-74.  Line 71 reads [obj.analytics_report] with no guard (lines
    206, 241 and 276 read it through [getattr] with a default): it is the
    reverse accessor of the one-to-one field of the report, which raises
    [RelatedObjectDoesNotExist], an [AttributeError], for an entity without
    a report.  A report that is there is true, so [return None] of line 74
    is not reached. *)
Definition _get_last_report_time (db : Reports) (obj : Obj) : result (option Z) :=
  match analytics_report db obj with
  | Some report => Ok (Some (created_date report))
  | None => Raise AttributeError
  end.

(** [max(iterable, key=key, default=None)]: the first element whose key is
    the greatest; an exception of [key] propagates. *)
Fixpoint max_from (key : string → result Z) (best : string) (best_key : Z)
    (l : list string) : result string :=
  match l with
  | [] => Ok best
  | j :: l' =>
      k ← key j;
      if bool_decide (best_key < k) then max_from key j k l'
      else max_from key best best_key l'
  end.

Definition py_max (key : string → result Z) (l : list string) : result (option string) :=
  match l with
  | [] => Ok None
  | j :: l' => k ← key j; best ← max_from key j k l'; Ok (Some best)
  end.

(** Lines 104-106: the start of the next time frame after [now]. *)
Definition next_update_time (last_update_time delay now : Z) : result Z :=
  if bool_decide (delay = 0) then Raise ZeroDivisionError
  else
    let intervals := Z.max 1 (1 + (now - last_update_time) `div` delay) in
    Ok (last_update_time + delay * intervals).

Section Scheduler.
(** [settings.ANALYTICS_CHECK_JOB_DELAY], in seconds. *)
Variable ANALYTICS_CHECK_JOB_DELAY : Z.

(** Python's floats are not modelled: the text of [start_time.timestamp()]
    in an f-string, and [datetime.fromtimestamp(float(text), tz=utc)], which
    is undefined where [float] or [fromtimestamp] raises. *)
Variable timestamp_str : Z → string.
Variable fromtimestamp_float : string → option Z.

Definition _get_analytics_check_job_delay : Z :=
  1000000 * ANALYTICS_CHECK_JOB_DELAY.

Definition _make_regular_queue_job_id (obj : Obj) (start_time : Z) : string :=
  _make_queue_job_prefix obj +:+ timestamp_str start_time.

(** The local function [_get_timestamp] of [_find_next_job_id]. *)
Definition _get_timestamp (job_id_prefix job_id : string) : result Z :=
  let job_timestamp := split_last job_id_prefix job_id in
  if bool_decide (job_timestamp = "initial") then Ok datetime_min
  else
    match fromtimestamp_float job_timestamp with
    | Some t => Ok t
    | None => Raise ValueError
    end.

Definition _find_next_job_id (db : Reports) (existing_job_ids : gset string)
    (obj : Obj) (now : Z) : result string :=
  let job_id_prefix := _make_queue_job_prefix obj in
  max_job_id ←
    py_max (_get_timestamp job_id_prefix)
      (filter (λ j, startswith j job_id_prefix = true) (elements existing_job_ids));
  max_timestamp ←
    match max_job_id with
    | Some j =>
        if bool_decide (j = "") then Ok None
        else t ← _get_timestamp job_id_prefix j; Ok (Some t)
    | None => Ok None
    end;
  last_update_time ← _get_last_report_time db obj;
  match last_update_time with
  | None => Ok (_make_initial_queue_job_id obj)
  | Some last_update_time =>
      let next_time_frame :=
        next ← next_update_time last_update_time _get_analytics_check_job_delay now;
        Ok (_make_regular_queue_job_id obj next) in
      match max_job_id, max_timestamp with
      | Some j, Some t => if bool_decide (now < t) then Ok j else next_time_frame
      | _, _ => next_time_frame
      end
  end.

(** The choice of [target_obj], [cvat_project_id] and [cvat_task_id]
    (lines 122-141). *)
Definition target_of_task (t : Task) : Obj * Kwargs :=
  match task_project t with
  | Some p =>
      (ObjProject p,
       {| cvat_job_id := None; cvat_task_id := None;
          cvat_project_id := Some (project_id p) |})
  | None =>
      (ObjTask t,
       {| cvat_job_id := None; cvat_task_id := Some (task_id t);
          cvat_project_id := None |})
  end.

Definition autoupdate_target (job : option Job) (task : option Task)
    (project : option Project) : option Obj * Kwargs :=
  match job, task, project with
  | Some j, _, _ =>
      let '(o, kw) := target_of_task (segment_task (job_segment j)) in (Some o, kw)
  | None, Some t, _ =>
      let '(o, kw) := target_of_task t in (Some o, kw)
  | None, None, Some p =>
      (Some (ObjProject p),
       {| cvat_job_id := None; cvat_task_id := None;
          cvat_project_id := Some (project_id p) |})
  | None, None, None =>
      (None, {| cvat_job_id := None; cvat_task_id := None; cvat_project_id := None |})
  end.

(** Lines 115-120: [now] is the reading of [timezone.now()] and [utcnow]
    the later reading of the clock by [now.utcnow()]; the listing of the
    pending jobs is taken once. *)
Record Listing : Type := {
  listing_now : Z;
  next_job_time : Z;
  existing_job_ids : gset string;
}.

Definition list_pending (q : gmap string RqJob) (now utcnow : Z) : Listing :=
  let delay := _get_analytics_check_job_delay in
  let next_job_time := utcnow + delay in
  {| listing_now := now;
     next_job_time := next_job_time;
     existing_job_ids := get_jobs q next_job_time |}.

(** Line 143: the job id the call settles on.  With no entity given,
    [target_obj] is [None] and [_make_queue_job_prefix] raises on
    [obj.id]. *)
Definition autoupdate_job_id (db : Reports) (job : option Job) (task : option Task)
    (project : option Project) (l : Listing) : result string :=
  match (autoupdate_target job task project).1 with
  | None => Raise AttributeError
  | Some obj => _find_next_job_id db (existing_job_ids l) obj (listing_now l)
  end.

(** Lines 122-151, on the queue [q] as it is when the job is enqueued. *)
Definition enqueue_target (db : Reports) (q : gmap string RqJob) (job : option Job)
    (task : option Task) (project : option Project) (l : Listing)
  : result (gmap string RqJob) :=
  queue_job_id ← autoupdate_job_id db job task project l;
  if bool_decide (queue_job_id ∈ existing_job_ids l) then Ok q
  else
    Ok (enqueue_at q (next_job_time l) (autoupdate_target job task project).2
          queue_job_id).

Definition schedule_analytics_report_autoupdate_job (db : Reports)
    (q : gmap string RqJob) (job : option Job) (task : option Task)
    (project : option Project) (now utcnow : Z) : result (gmap string RqJob) :=
  enqueue_target db q job task project (list_pending q now utcnow).

(** Calls one after the other, each given its two readings of the clock:
    the job ids they settle on and the queue they leave. *)
Fixpoint run_autoupdate (db : Reports) (q : gmap string RqJob) (job : option Job)
    (task : option Task) (project : option Project) (calls : list (Z * Z))
  : result (list string * gmap string RqJob) :=
  match calls with
  | [] => Ok ([], q)
  | (now, utcnow) :: calls' =>
      key ← autoupdate_job_id db job task project (list_pending q now utcnow);
      q' ← schedule_analytics_report_autoupdate_job db q job task project now utcnow;
      '(keys, q'') ← run_autoupdate db q' job task project calls';
      Ok (key :: keys, q'')
  end.

(** Every listed job id under the prefix is one the scheduler writes:
    [initial] or a timestamp that [fromtimestamp] accepts. *)
Definition well_formed_ids (prefix : string) (ids : gset string) : Prop :=
  ∀ j, j ∈ ids → startswith j prefix = true →
    ∃ t, _get_timestamp prefix j = Ok t.

(** The on-demand check job; [rq_id] is the value of [uuid4().hex]. *)
Definition schedule_analytics_check_job (q : gmap string RqJob) (rq_id : string)
    (job : option Job) (task : option Task) (project : option Project)
    (user_id : Z) : string * gmap string RqJob :=
  (rq_id,
   enqueue q
     {| cvat_job_id := job_id <$> job;
        cvat_task_id := task_id <$> task;
        cvat_project_id := project_id <$> project |}
     rq_id
     {[ "user_id" := MetaInt user_id;
        "job_type" := MetaStr _RQ_CUSTOM_ANALYTICS_CHECK_JOB_TYPE ]}
     _JOB_RESULT_TTL _JOB_RESULT_TTL).
End Scheduler.

Definition is_custom_analytics_check_job (rq_job : RqJob) : bool :=
  bool_decide (meta rq_job !! "job_type" = Some (MetaStr _RQ_CUSTOM_ANALYTICS_CHECK_JOB_TYPE)).

Definition get_analytics_check_job (q : gmap string RqJob) (rq_id : string) : option RqJob :=
  match fetch_job q rq_id with
  | Some rq_job => if negb (is_custom_analytics_check_job rq_job) then None else Some rq_job
  | None => None
  end.

(** ** Metrics *)

Inductive MetricClass : Type :=
| JobAnnotationSpeed | JobAnnotationTime | JobObjects
| JobTotalAnnotationSpeed | JobTotalObjectCount
| TaskAnnotationSpeed | TaskObjects | TaskAnnotationTime
| TaskTotalAnnotationSpeed | TaskTotalObjectCount
| ProjectAnnotationSpeed | ProjectObjects | ProjectAnnotationTime
| ProjectTotalAnnotationSpeed | ProjectTotalObjectCount.

(** What a metric is constructed from besides its entity: nothing (a
    primary metric of a job), [primary_statistics=entry] (a derived metric of
    a job), or the list of the entries of the job reports. *)
Inductive MetricInput : Type :=
| NoStatistics
| PrimaryStatistics (entry : StatisticsEntry)
| ReportStatistics (entries : list StatisticsEntry).

(** A metric object, [Class(db_obj, input)]. *)
Record Metric : Type := {
  metric_class : MetricClass;
  metric_obj : Obj;
  metric_input : MetricInput;
}.

(** ** The computation of reports *)

(** The state a computation runs in: the report table, the clock, and the
    metrics whose [calculate()] was invoked so far, oldest first. *)
Record EngineState : Type := {
  reports : Reports;
  clock : Z;
  calculated : list Metric;
}.

(** A computation: it ends with a value or an exception, and what it wrote
    before an exception stays written (no transaction surrounds it). *)
Definition M (A : Type) : Type := EngineState → EngineState * result A.

#[global] Instance M_ret : MRet M := λ A a s, (s, Ok a).
#[global] Instance M_bind : MBind M := λ A B k m s,
  match m s with
  | (s', Ok a) => k a s'
  | (s', Raise e) => (s', Raise e)
  end.

Fixpoint for_each {A B} (f : A → M B) (l : list A) : M (list B) :=
  match l with
  | [] => mret []
  | a :: l' => b ← f a; bs ← for_each f l'; mret (b :: bs)
  end.

Definition set_report (obj : Obj) (r : AnalyticsReport) (db : Reports) : Reports :=
  match obj with
  | ObjJob j =>
      {| job_reports := <[job_id j := r]> (job_reports db);
         task_reports := task_reports db; project_reports := project_reports db |}
  | ObjTask t =>
      {| job_reports := job_reports db;
         task_reports := <[task_id t := r]> (task_reports db);
         project_reports := project_reports db |}
  | ObjProject p =>
      {| job_reports := job_reports db; task_reports := task_reports db;
         project_reports := <[project_id p := r]> (project_reports db) |}
  end.

(** [d[key]] *)
Definition getitem (d : gmap string StatisticsEntry) (key : string) : result StatisticsEntry :=
  match d !! key with
  | Some e => Ok e
  | None => Raise (KeyError key)
  end.

(** [[jr.statistics[key] for jr in job_reports]] *)
Fixpoint entries_of (key : string) (job_reports : list AnalyticsReport)
  : result (list StatisticsEntry) :=
  match job_reports with
  | [] => Ok []
  | jr :: l => e ← getitem (statistics jr) key; es ← entries_of key l; Ok (e :: es)
  end.

Definition lift {A} (r : result A) : M A := λ s, (s, r).

Section Engine.
(** The reverse relations of the database, in the order a query returns
    them. *)
Variable tasks : Project → list Task.
Variable segment_set : Task → list Segment.
Variable job_set : Segment → list Job.

(** The metric classes are not part of this module: [calculate] is the
    outcome of [statistics_object.calculate()] on the entity's activity,
    and the five attributes are those of the class. *)
Variable calculate : Metric → result Json.
Variable metric_title metric_description metric_granularity
  metric_default_view metric_transformations : MetricClass → Json.

(** The clock, read again: [tick t] is its reading after [t]. *)
Variable tick : Z → Z.

Definition getattr_analytics_report (obj : Obj) : M (option AnalyticsReport) :=
  λ s, (s, Ok (analytics_report (reports s) obj)).

(** Modelled from the spec: the report model (models.py) is not part of
    this module; a report row holds [statistics] and [created_date], and
    every save of the row sets [created_date] to the time of the save. *)
Definition save (obj : Obj) (stats : gmap string StatisticsEntry) : M AnalyticsReport :=
  λ s,
    let r := {| created_date := clock s; statistics := stats |} in
    ({| reports := set_report obj r (reports s);
        clock := tick (clock s);
        calculated := calculated s |}, Ok r).

(** [AnalyticsReport.objects.create(<obj>_id=obj.id, statistics={})] *)
Definition objects_create (obj : Obj) : M AnalyticsReport := save obj ∅.

(** [report.refresh_from_db()] on [obj.analytics_report]: the row is read
    again; with no report there is nothing to call it on. *)
Definition refresh_from_db (obj : Obj) : M unit :=
  λ s,
    match analytics_report (reports s) obj with
    | Some _ => (s, Ok tt)
    | None => (s, Raise AttributeError)
    end.

Definition _get_statistics_entry (statistics_object : Metric) : M StatisticsEntry :=
  λ s,
    let c := metric_class statistics_object in
    ({| reports := reports s; clock := clock s;
        calculated := calculated s ++ [statistics_object] |},
     d ← calculate statistics_object;
     Ok {| title := metric_title c;
           description := metric_description c;
           granularity := metric_granularity c;
           default_view := metric_default_view c;
           transformations := metric_transformations c;
           dataseries := d |}).

(** Lines 206-214, 241-247 and 276-282: the report of the entity, created
    empty when there is none. *)
Definition get_or_create (obj : Obj) : M (AnalyticsReport * bool) :=
  db_report ← getattr_analytics_report obj;
  match db_report with
  | None =>
      _ ← objects_create obj;
      db_report ← save obj ∅;
      mret (db_report, true)
  | Some db_report => mret (db_report, false)
  end.

Definition _compute_report_for_job (db_job : Job) : M AnalyticsReport :=
  '(db_report, was_created) ← get_or_create (ObjJob db_job);
  if bool_decide (created_date db_report < job_updated_date db_job) || was_created then
    let annotation_speed :=
      {| metric_class := JobAnnotationSpeed; metric_obj := ObjJob db_job;
         metric_input := NoStatistics |} in
    let objects :=
      {| metric_class := JobObjects; metric_obj := ObjJob db_job;
         metric_input := NoStatistics |} in
    let annotation_time :=
      {| metric_class := JobAnnotationTime; metric_obj := ObjJob db_job;
         metric_input := NoStatistics |} in
    e_objects ← _get_statistics_entry objects;
    e_annotation_speed ← _get_statistics_entry annotation_speed;
    e_annotation_time ← _get_statistics_entry annotation_time;
    let statistics : gmap string StatisticsEntry :=
      <["annotation_time" := e_annotation_time]>
        (<["annotation_speed" := e_annotation_speed]>
           (<["objects" := e_objects]> ∅)) in
    primary1 ← lift (getitem statistics "annotation_speed");
    let total_annotation_speed :=
      {| metric_class := JobTotalAnnotationSpeed; metric_obj := ObjJob db_job;
         metric_input := PrimaryStatistics primary1 |} in
    primary2 ← lift (getitem statistics "annotation_speed");
    let total_object_count :=
      {| metric_class := JobTotalObjectCount; metric_obj := ObjJob db_job;
         metric_input := PrimaryStatistics primary2 |} in
    e_total_annotation_speed ← _get_statistics_entry total_annotation_speed;
    let statistics := <["total_annotation_speed" := e_total_annotation_speed]> statistics in
    e_total_object_count ← _get_statistics_entry total_object_count;
    let statistics := <["total_object_count" := e_total_object_count]> statistics in
    save (ObjJob db_job) statistics
  else mret db_report.

(** The five metrics of a task or of a project over the job reports, and
    the statistics made of them (lines 256-268 and 294-306): [first] is the
    entity given to the first metric and [others] the one given to the
    other four. *)
Definition aggregate (c_objects c_speed c_time c_total_speed c_total_count : MetricClass)
    (first : Obj) (others : result Obj) (job_reports : list AnalyticsReport)
  : M (gmap string StatisticsEntry) :=
  l_objects ← lift (entries_of "objects" job_reports);
  let objects :=
    {| metric_class := c_objects; metric_obj := first;
       metric_input := ReportStatistics l_objects |} in
  o ← lift others;
  l_speed ← lift (entries_of "annotation_speed" job_reports);
  let annotation_speed :=
    {| metric_class := c_speed; metric_obj := o;
       metric_input := ReportStatistics l_speed |} in
  l_time ← lift (entries_of "annotation_time" job_reports);
  let annotation_time :=
    {| metric_class := c_time; metric_obj := o;
       metric_input := ReportStatistics l_time |} in
  l_speed' ← lift (entries_of "annotation_speed" job_reports);
  let total_annotation_speed :=
    {| metric_class := c_total_speed; metric_obj := o;
       metric_input := ReportStatistics l_speed' |} in
  l_speed'' ← lift (entries_of "annotation_speed" job_reports);
  let total_object_count :=
    {| metric_class := c_total_count; metric_obj := o;
       metric_input := ReportStatistics l_speed'' |} in
  e_objects ← _get_statistics_entry objects;
  e_annotation_speed ← _get_statistics_entry annotation_speed;
  e_annotation_time ← _get_statistics_entry annotation_time;
  e_total_annotation_speed ← _get_statistics_entry total_annotation_speed;
  e_total_object_count ← _get_statistics_entry total_object_count;
  mret (<["total_object_count" := e_total_object_count]>
          (<["total_annotation_speed" := e_total_annotation_speed]>
             (<["annotation_time" := e_annotation_time]>
                (<["annotation_speed" := e_annotation_speed]>
                   (<["objects" := e_objects]> ∅))))).

(** The jobs of a task, segment by segment. *)
Definition jobs_of (db_task : Task) : list Job :=
  db_segment ← segment_set db_task; job_set db_segment.

Definition _compute_report_for_task (db_task : Task) : M AnalyticsReport :=
  '(db_report, was_created) ← get_or_create (ObjTask db_task);
  if bool_decide (created_date db_report < task_updated_date db_task) || was_created then
    job_reports ← for_each _compute_report_for_job (jobs_of db_task);
    statistics ←
      aggregate TaskObjects TaskAnnotationSpeed TaskAnnotationTime
        TaskTotalAnnotationSpeed TaskTotalObjectCount
        (ObjTask db_task) (Ok (ObjTask db_task)) job_reports;
    save (ObjTask db_task) statistics
  else mret db_report.

(** The variable [db_task] after the loop over the tasks of the project:
    the last task, and unbound when the project has no task. *)
Definition db_task_after_loop (db_project : Project) : result Obj :=
  match last (tasks db_project) with
  | Some db_task => Ok (ObjTask db_task)
  | None => Raise (UnboundLocalError "db_task")
  end.

Definition _compute_report_for_project (db_project : Project) : M AnalyticsReport :=
  '(db_report, was_created) ← get_or_create (ObjProject db_project);
  if bool_decide (created_date db_report < project_updated_date db_project) || was_created then
    job_reports ←
      for_each
        (λ db_task,
           _ ← _compute_report_for_task db_task;
           for_each
             (λ db_job,
                _ ← refresh_from_db (ObjJob db_job);
                _compute_report_for_job db_job)
             (jobs_of db_task))
        (tasks db_project);
    statistics ←
      aggregate ProjectObjects ProjectAnnotationSpeed ProjectAnnotationTime
        ProjectTotalAnnotationSpeed ProjectTotalObjectCount
        (ObjProject db_project) (db_task_after_loop db_project) (concat job_reports);
    save (ObjProject db_project) statistics
  else mret db_report.
End Engine.

(** ** Relations between the states before and after a computation

    [respects R normal_only m]: the state [m] ends in is related by [R] to
    the one it started in, whatever the outcome or, with [normal_only], when
    [m] returns a value. *)

Definition respects {A} (R : EngineState → EngineState → Prop) (normal_only : bool)
    (m : M A) : Prop :=
  ∀ s,
    match m s with
    | (s', Ok _) => R s s'
    | (s', Raise _) => if normal_only then True else R s s'
    end.

(** [respects_raise R m]: when [m] raises, the state it ends in is related
    by [R] to the one it started in. *)
Definition respects_raise {A} (R : EngineState → EngineState → Prop) (m : M A) : Prop :=
  ∀ s s' e, m s = (s', Raise e) → R s s'.

(** The reports are the same. *)
Definition same_reports (s s' : EngineState) : Prop := reports s' = reports s.

(** The reports of the tasks and of the projects are the same. *)
Definition same_above_jobs (s s' : EngineState) : Prop :=
  task_reports (reports s') = task_reports (reports s)
  ∧ project_reports (reports s') = project_reports (reports s).

(** The reports of the projects are the same. *)
Definition same_above_tasks (s s' : EngineState) : Prop :=
  project_reports (reports s') = project_reports (reports s).

(** The metrics calculated in between all returned data. *)
Definition calculated_all (calculate : Metric → result Json) (s s' : EngineState) : Prop :=
  ∃ l, calculated s' = calculated s ++ l ∧ Forall (λ m, ∃ d, calculate m = Ok d) l.

(** ** The specification's reading of the next time frame

    The number of intervals as the specification words it, with a ceiling,
    to be compared with [next_update_time]. *)

Definition ceil_div (a d : Z) : Z := - ((- a) `div` d).

Definition spec_intervals (last_report_time delay now : Z) : Z :=
  Z.max 1 (ceil_div (now - last_report_time) delay).

Definition spec_target_time (last_report_time delay now : Z) : Z :=
  last_report_time + delay * spec_intervals last_report_time delay now.

(** ** A rendering of timestamps for the examples

    The decimal text of the seconds with up to six decimals and no trailing
    zero, which is what Python prints for the timestamp of an instant of our
    era, and its reading back. *)

Fixpoint strip_zeros (digits : list Z) : list Z :=
  match digits with
  | [] => []
  | d :: ds =>
      match strip_zeros ds with
      | [] => if bool_decide (d = 0) then [] else [d]
      | ds' => d :: ds'
      end
  end.

Definition micro_digits (f : Z) : list Z :=
  [(f `div` 100000) `mod` 10; (f `div` 10000) `mod` 10; (f `div` 1000) `mod` 10;
   (f `div` 100) `mod` 10; (f `div` 10) `mod` 10; f `mod` 10].

Definition digits_str (ds : list Z) : string :=
  foldr (λ d s, pretty d +:+ s) "" ds.

Definition decimal_timestamp_str (t : Z) : string :=
  let a := Z.abs t in
  let frac := strip_zeros (micro_digits (a `mod` 1000000)) in
  (if bool_decide (t < 0) then "-" else "")
    +:+ pretty (a `div` 1000000) +:+ "."
    +:+ (match frac with [] => "0" | _ => digits_str frac end).

Definition digit_of (c : ascii) : option Z :=
  let n := Z.of_nat (nat_of_ascii c) in
  if bool_decide (48 ≤ n ≤ 57) then Some (n - 48) else None.

(** The digits before the point, then those after it, as a number of
    microseconds; [scale] is the weight of the next decimal. *)
Fixpoint read_decimals (s : string) (scale acc : Z) : option Z :=
  match s with
  | EmptyString => Some acc
  | String c s' =>
      d ← digit_of c;
      if bool_decide (scale = 0) then None
      else read_decimals s' (scale `div` 10) (acc + d * scale)
  end.

Fixpoint read_seconds (s : string) (acc : Z) : option Z :=
  match s with
  | EmptyString => None
  | String c s' =>
      if Ascii.eqb c "." then
        match s' with
        | EmptyString => None
        | _ => read_decimals s' 100000 (acc * 1000000)
        end
      else d ← digit_of c; read_seconds s' (10 * acc + d)
  end.

Definition decimal_fromtimestamp (s : string) : option Z :=
  match s with
  | String "-" s' => Z.opp <$> read_seconds s' 0
  | _ => read_seconds s 0
  end.

(** ** Sample data for the examples

    A standalone task, a task of a project and a job of each; the delay is
    thirty seconds. *)

Definition sample_project : Project :=
  {| project_id := 7; project_updated_date := 50000000 |}.

Definition sample_task : Task :=
  {| task_id := 1; task_updated_date := 50000000; task_project := None |}.

Definition sample_project_task : Task :=
  {| task_id := 2; task_updated_date := 50000000; task_project := Some sample_project |}.

Definition sample_job : Job :=
  {| job_id := 11; job_updated_date := 50000000;
     job_segment := {| segment_id := 5; segment_task := sample_task |} |}.

Definition sample_project_job : Job :=
  {| job_id := 12; job_updated_date := 50000000;
     job_segment := {| segment_id := 6; segment_task := sample_project_task |} |}.

Definition no_reports : Reports :=
  {| job_reports := ∅; task_reports := ∅; project_reports := ∅ |}.

(** The report of [sample_task] was computed at second 100. *)
Definition sample_reports : Reports :=
  {| job_reports := ∅;
     task_reports := {[ 1 := {| created_date := 100000000; statistics := ∅ |} ]};
     project_reports := ∅ |}.

Definition sample_delay : Z := 30.


(** The report of [sample_task] was recomputed at second 150.000003. *)
Definition recomputed_reports : Reports :=
  {| job_reports := ∅;
     task_reports := {[ 1 := {| created_date := 150000003; statistics := ∅ |} ]};
     project_reports := ∅ |}.

(** The job that a call for [sample_task] at second 145 enqueues, a job of
    [sample_task] due at a given instant, and the job that a call for
    [sample_project] at second 145 enqueues. *)
Definition sample_window_job : RqJob :=
  {| func_kwargs := {| cvat_job_id := None; cvat_task_id := Some 1;
                       cvat_project_id := None |};
     meta := ∅; scheduled_time := Some 175000000;
     result_ttl := None; failure_ttl := None |}.

Definition sample_task_job (due : Z) : RqJob :=
  {| func_kwargs := {| cvat_job_id := None; cvat_task_id := Some 1;
                       cvat_project_id := None |};
     meta := ∅; scheduled_time := Some due;
     result_ttl := None; failure_ttl := None |}.


(** The reverse relations of the sample data, metrics that return one
    point or that all fail, and a clock that advances by one microsecond. *)
Definition sample_tasks (p : Project) : list Task :=
  if bool_decide (project_id p = 7) then [sample_project_task] else [].

Definition sample_segment_set (t : Task) : list Segment :=
  if bool_decide (task_id t = 2) then [job_segment sample_project_job]
  else if bool_decide (task_id t = 1) then [job_segment sample_job]
  else [].

Definition sample_job_set (seg : Segment) : list Job :=
  if bool_decide (segment_id seg = 6) then [sample_project_job]
  else if bool_decide (segment_id seg = 5) then [sample_job]
  else [].

Definition sample_calculate (m : Metric) : result Json := Ok (JList [JNum 1]).

Definition failing_calculate (m : Metric) : result Json :=
  Raise (CalculateError "calculate").

Definition sample_attribute (c : MetricClass) : Json := JStr "".

Definition sample_entry : StatisticsEntry :=
  {| title := JStr ""; description := JStr ""; granularity := JStr "";
     default_view := JStr ""; transformations := JStr "";
     dataseries := JList [JNum 1] |}.

(** Second 200, nothing computed yet. *)
Definition sample_state : EngineState :=
  {| reports := no_reports; clock := 200000000; calculated := [] |}.

(** [sample_job], updated at second 50, has a report of second 10, or one
    of second 60. *)
Definition job_report_state (created : Z) : EngineState :=
  {| reports :=
       {| job_reports := {[ 11 := {| created_date := created; statistics := ∅ |} ]};
          task_reports := ∅; project_reports := ∅ |};
     clock := 200000000; calculated := [] |}.

(** A project without tasks. *)
Definition empty_project : Project :=
  {| project_id := 8; project_updated_date := 50000000 |}.

(** ** Further definitions *)

(** No character of the string is a dash. *)
Fixpoint no_dash (s : string) : Prop :=
  match s with
  | EmptyString => True
  | String c s' => c ≠ "-"%char ∧ no_dash s'
  end.

(** [isinstance(obj, Task)] *)
Definition is_task (obj : Obj) : bool :=
  match obj with
  | ObjTask _ => true
  | _ => false
  end.

(** The rows of a table are the same but for the one of [id]. *)
Definition rows_same_except (id : Z) (m m' : gmap Z AnalyticsReport) : Prop :=
  ∀ k, k ≠ id → m' !! k = m !! k.

(** Of all reports, only that of the job, of the task, of the project [id]
    may differ; for a task and for a project, the reports of the levels
    below are left out of the comparison. *)
Definition job_frame (id : Z) (s s' : EngineState) : Prop :=
  rows_same_except id (job_reports (reports s)) (job_reports (reports s'))
  ∧ task_reports (reports s') = task_reports (reports s)
  ∧ project_reports (reports s') = project_reports (reports s).

Definition task_frame (id : Z) (s s' : EngineState) : Prop :=
  rows_same_except id (task_reports (reports s)) (task_reports (reports s'))
  ∧ project_reports (reports s') = project_reports (reports s).

Definition project_frame (id : Z) (s s' : EngineState) : Prop :=
  rows_same_except id (project_reports (reports s)) (project_reports (reports s')).

(** Every entity that has a report still has one. *)
Definition reports_kept (s s' : EngineState) : Prop :=
  ∀ obj, is_Some (analytics_report (reports s) obj) →
         is_Some (analytics_report (reports s') obj).

(** The clock has not gone back. *)
Definition clock_advances (s s' : EngineState) : Prop := clock s ≤ clock s'.

(** [returns Q m]: when [m] returns a value [a] in the state [s'], started
    in [s], then [Q s s' a]. *)
Definition returns {A} (Q : EngineState → EngineState → A → Prop) (m : M A) : Prop :=
  ∀ s s' a, m s = (s', Ok a) → Q s s' a.

(** The report is the stored one of the entity and is dated no earlier
    than the start. *)
Definition stored_and_dated (obj : Obj) (s s' : EngineState) (r : AnalyticsReport) : Prop :=
  analytics_report (reports s') obj = Some r ∧ clock s ≤ created_date r.

(** ** The function that the queued jobs run *)

Section CheckJob.
Variable tasks : Project → list Task.
Variable segment_set : Task → list Segment.
Variable job_set : Segment → list Job.
Variable calculate : Metric → result Json.
Variable metric_title metric_description metric_granularity
  metric_default_view metric_transformations : MetricClass → Json.
Variable tick : Z → Z.

(** [Job.objects...get(pk=id)] and the like: the row of that key, if any. *)
Variable Job_objects_get : Z → option Job.
Variable Task_objects_get : Z → option Task.
Variable Project_objects_get : Z → option Project.

(** [_check_job_analytics(cvat_job_id=..., cvat_task_id=...,
    cvat_project_id=...)].  The result is [None] where the query raises
    [DoesNotExist], an exception of the models that [exn] does not list,
    before anything is computed; the computation returns the report, or
    [None] when no id is given. *)
Definition _check_job_analytics (kwargs : Kwargs) : option (M (option AnalyticsReport)) :=
  match cvat_job_id kwargs, cvat_task_id kwargs, cvat_project_id kwargs with
  | Some pk, _, _ =>
      match Job_objects_get pk with
      | Some db_job =>
          Some (db_report ←
                  _compute_report_for_job calculate metric_title metric_description
                    metric_granularity metric_default_view metric_transformations tick
                    db_job;
                mret (Some db_report))
      | None => None
      end
  | None, Some pk, _ =>
      match Task_objects_get pk with
      | Some db_task =>
          Some (db_report ←
                  _compute_report_for_task segment_set job_set calculate metric_title
                    metric_description metric_granularity metric_default_view
                    metric_transformations tick db_task;
                mret (Some db_report))
      | None => None
      end
  | None, None, Some pk =>
      match Project_objects_get pk with
      | Some db_project =>
          Some (db_report ←
                  _compute_report_for_project tasks segment_set job_set calculate
                    metric_title metric_description metric_granularity
                    metric_default_view metric_transformations tick db_project;
                mret (Some db_report))
      | None => None
      end
  | None, None, None => Some (mret None)
  end.
End CheckJob.

(** ** Further sample data *)

Definition sample_statistics : gmap string StatisticsEntry :=
  {[ "objects" := sample_entry; "annotation_speed" := sample_entry;
     "annotation_time" := sample_entry; "total_annotation_speed" := sample_entry;
     "total_object_count" := sample_entry ]}.

(** The report of [sample_job] computed in [sample_state], and the state
    after that computation. *)
Definition sample_job_report : AnalyticsReport :=
  {| created_date := 200000002; statistics := sample_statistics |}.

Definition sample_job_metrics : list Metric :=
  [{| metric_class := JobObjects; metric_obj := ObjJob sample_job;
      metric_input := NoStatistics |};
   {| metric_class := JobAnnotationSpeed; metric_obj := ObjJob sample_job;
      metric_input := NoStatistics |};
   {| metric_class := JobAnnotationTime; metric_obj := ObjJob sample_job;
      metric_input := NoStatistics |};
   {| metric_class := JobTotalAnnotationSpeed; metric_obj := ObjJob sample_job;
      metric_input := PrimaryStatistics sample_entry |};
   {| metric_class := JobTotalObjectCount; metric_obj := ObjJob sample_job;
      metric_input := PrimaryStatistics sample_entry |}].

Definition sample_state_after_job : EngineState :=
  {| reports :=
       {| job_reports := {[ 11 := sample_job_report ]};
          task_reports := ∅; project_reports := ∅ |};
     clock := 200000003; calculated := sample_job_metrics |}.

(** [sample_project_task], updated at second 50, has a report of second 60
    and its job has none. *)
Definition task_report_state : EngineState :=
  {| reports :=
       {| job_reports := ∅;
          task_reports := {[ 2 := {| created_date := 60000000; statistics := ∅ |} ]};
          project_reports := ∅ |};
     clock := 200000000; calculated := [] |}.

(** The rows of the sample entities by key. *)
Definition sample_Job_get (pk : Z) : option Job :=
  if bool_decide (pk = 11) then Some sample_job
  else if bool_decide (pk = 12) then Some sample_project_job
  else None.

Definition sample_Task_get (pk : Z) : option Task :=
  if bool_decide (pk = 1) then Some sample_task
  else if bool_decide (pk = 2) then Some sample_project_task
  else None.

Definition sample_Project_get (pk : Z) : option Project :=
  if bool_decide (pk = 7) then Some sample_project else None.

(** * Properties *)

(** ** Strings and prefixes *)

Lemma strip_prefix_app p r : strip_prefix p (p +:+ r) = Some r.
Proof.
  induction p as [|a p IH]; simpl; [by destruct r|].
  by rewrite Ascii.eqb_refl.
Qed.

Lemma strip_prefix_Some p s r : strip_prefix p s = Some r → s = p +:+ r.
Proof.
  revert s; induction p as [|a p IH]; intros s; simpl.
  - by intros [= ->].
  - destruct s as [|b s]; [done|].
    destruct (Ascii.eqb_spec a b) as [->|]; [|done].
    intros H. by rewrite (IH _ H).
Qed.

Lemma startswith_app p r : startswith (p +:+ r) p = true.
Proof. unfold startswith. by rewrite strip_prefix_app. Qed.

Lemma startswith_inv s p : startswith s p = true → ∃ r, s = p +:+ r.
Proof.
  unfold startswith. destruct (strip_prefix p s) as [r|] eqn:H; [|done].
  intros _. exists r. by apply strip_prefix_Some.
Qed.

Lemma split_last_app p r : split_last p (p +:+ r) = r.
Proof.
  unfold split_last.
  assert (after_first p (p +:+ r) = Some r) as ->; [|done].
  destruct (p +:+ r) eqn:E; simpl; rewrite <-E, strip_prefix_app; done.
Qed.

Lemma prefix_not_empty obj : ∃ c rest, _make_queue_job_prefix obj = String c rest.
Proof. destruct obj; simpl; eauto. Qed.

Lemma startswith_prefix_nonempty obj j :
  startswith j (_make_queue_job_prefix obj) = true → j ≠ "".
Proof.
  destruct (prefix_not_empty obj) as (c & rest & ->). by intros H ->.
Qed.

(** ** The greatest element by key *)

Lemma max_from_spec (key : string → result Z) l best best_key :
  key best = Ok best_key →
  (∀ j, j ∈ l → ∃ t, key j = Ok t) →
  ∃ j t, max_from key best best_key l = Ok j ∧ key j = Ok t ∧
         (j = best ∨ j ∈ l) ∧ best_key ≤ t ∧
         (∀ j' t', j' ∈ l → key j' = Ok t' → t' ≤ t).
Proof.
  revert best best_key; induction l as [|a l IH]; intros best best_key Hb Hall.
  - exists best, best_key. simpl. split_and!; auto; [lia|]. intros ?? H; inversion H.
  - destruct (Hall a) as [ta Ha]; [left|].
    simpl. rewrite Ha. simpl. unfold mbind, result_bind. simpl.
    assert (∀ j, j ∈ l → ∃ t, key j = Ok t) as Hall' by (intros; apply Hall; by right).
    case_bool_decide as Hlt.
    + destruct (IH a ta Ha Hall') as (j & t & Hm & Hk & Hin & Hle & Hmax).
      exists j, t. split_and!; auto.
      * destruct Hin as [->|]; right; [left | by right].
      * lia.
      * intros j' t' Hj' Hk'. inversion Hj'; subst; [|eauto].
        rewrite Ha in Hk'. injection Hk' as <-. done.
    + destruct (IH best best_key Hb Hall') as (j & t & Hm & Hk & Hin & Hle & Hmax).
      exists j, t. split_and!; auto.
      * destruct Hin as [->|]; [by left | right; by right].
      * intros j' t' Hj' Hk'. inversion Hj'; subst; [|eauto].
        rewrite Ha in Hk'. injection Hk' as <-. lia.
Qed.

Lemma py_max_spec (key : string → result Z) l :
  (∀ j, j ∈ l → ∃ t, key j = Ok t) →
  (l = [] ∧ py_max key l = Ok None) ∨
  (∃ j t, py_max key l = Ok (Some j) ∧ j ∈ l ∧ key j = Ok t ∧
          ∀ j' t', j' ∈ l → key j' = Ok t' → t' ≤ t).
Proof.
  intros Hall. destruct l as [|a l]; [by left|right].
  destruct (Hall a) as [ta Ha]; [left|].
  destruct (max_from_spec key l a ta Ha) as (j & t & Hm & Hk & Hin & Hle & Hmax).
  { intros; apply Hall; by right. }
  exists j, t. simpl. rewrite Ha. unfold mbind, result_bind. simpl. rewrite Hm. simpl.
  split_and!; auto.
  - destruct Hin as [->|]; [left | by right].
  - intros j' t' Hj' Hk'. inversion Hj'; subst; [|eauto].
    rewrite Ha in Hk'. injection Hk' as <-. done.
Qed.

(** ** The job id of the next update *)

Section SchedulerProperties.
Variable ANALYTICS_CHECK_JOB_DELAY : Z.
Variable timestamp_str : Z → string.
Variable fromtimestamp_float : string → option Z.

Local Abbreviation delay := (_get_analytics_check_job_delay ANALYTICS_CHECK_JOB_DELAY).
Local Abbreviation get_timestamp := (_get_timestamp fromtimestamp_float).
Local Abbreviation regular_id := (_make_regular_queue_job_id timestamp_str).
Local Abbreviation find_next_job_id :=
  (_find_next_job_id ANALYTICS_CHECK_JOB_DELAY timestamp_str fromtimestamp_float).
Local Abbreviation well_formed := (well_formed_ids fromtimestamp_float).

Lemma get_timestamp_initial obj :
  get_timestamp (_make_queue_job_prefix obj) (_make_initial_queue_job_id obj)
  = Ok datetime_min.
Proof.
  unfold _get_timestamp, _make_initial_queue_job_id.
  by rewrite split_last_app.
Qed.

Lemma get_timestamp_regular obj t :
  timestamp_str t ≠ "initial" →
  fromtimestamp_float (timestamp_str t) = Some t →
  get_timestamp (_make_queue_job_prefix obj) (regular_id obj t) = Ok t.
Proof.
  intros Hne Hrt. unfold _get_timestamp, _make_regular_queue_job_id.
  rewrite split_last_app, bool_decide_eq_false_2, Hrt; done.
Qed.

(** What [_find_next_job_id] returns, by cases, when the listed ids under
    the prefix of the entity are well formed. *)
Lemma find_next_job_id_cases db ids obj now :
  well_formed (_make_queue_job_prefix obj) ids →
  match _get_last_report_time db obj with
  | Raise e => find_next_job_id db ids obj now = Raise e
  | Ok None => find_next_job_id db ids obj now = Ok (_make_initial_queue_job_id obj)
  | Ok (Some last_update_time) =>
      (∃ j t, j ∈ ids ∧ startswith j (_make_queue_job_prefix obj) = true ∧
              get_timestamp (_make_queue_job_prefix obj) j = Ok t ∧ now < t ∧
              (∀ j' t', j' ∈ ids → startswith j' (_make_queue_job_prefix obj) = true →
                        get_timestamp (_make_queue_job_prefix obj) j' = Ok t' → t' ≤ t) ∧
              find_next_job_id db ids obj now = Ok j)
      ∨ ((∀ j t, j ∈ ids → startswith j (_make_queue_job_prefix obj) = true →
                 get_timestamp (_make_queue_job_prefix obj) j = Ok t → t ≤ now) ∧
         find_next_job_id db ids obj now
         = bind_result (next_update_time last_update_time delay now)
             (λ next, Ok (regular_id obj next)))
  end.
Proof.
  intros Hwf. unfold _find_next_job_id.
  set (prefix := _make_queue_job_prefix obj) in *.
  set (l := filter (λ j, startswith j prefix = true) (elements ids)).
  assert (∀ j, j ∈ l ↔ startswith j prefix = true ∧ j ∈ ids) as Hl.
  { intros j. unfold l. rewrite list_elem_of_filter, elem_of_elements. done. }
  destruct (py_max_spec (get_timestamp prefix) l) as [[Hnil ->]|(j & t & -> & Hj & Hk & Hmax)].
  { intros j [Hp Hin]%Hl. by apply Hwf. }
  - simpl. destruct (_get_last_report_time db obj) as [[last|]|e]; [|done..].
    simpl. right. split; [|done].
    intros j t Hin Hp _. assert (j ∈ l) as Hjl by (by apply Hl).
    rewrite Hnil in Hjl. inversion Hjl.
  - apply Hl in Hj as [Hp Hin]. simpl.
    rewrite bool_decide_eq_false_2 by (by eapply startswith_prefix_nonempty).
    rewrite Hk. simpl.
    destruct (_get_last_report_time db obj) as [[last|]|e]; [|done..].
    simpl. case_bool_decide as Hlt.
    + left. exists j, t. split_and!; auto.
      intros j' t' Hin' Hp' Hk'. eapply Hmax; [|done]. by apply Hl.
    + right. split; [|done].
      intros j' t' Hin' Hp' Hk'.
      assert (t' ≤ t); [|lia]. eapply Hmax; [|done]. by apply Hl.
Qed.

Lemma next_time_frame_arith (last d now : Z) :
  0 < d →
  let target := last + d * Z.max 1 (1 + (now - last) `div` d) in
  now < target ∧
  (∃ k, 1 ≤ k ∧ target = last + d * k) ∧
  (∀ k, 1 ≤ k → now < last + d * k → target ≤ last + d * k).
Proof.
  intros Hd target.
  pose proof (Z.div_mod (now - last) d ltac:(lia)) as Hdm.
  pose proof (Z.mod_pos_bound (now - last) d Hd) as Hr.
  set (q := (now - last) `div` d) in *. set (r := (now - last) `mod` d) in *.
  split_and!.
  - unfold target. destruct (Z.max_spec 1 (1 + q)) as [[? ->]|[? ->]]; nia.
  - exists (Z.max 1 (1 + q)). split; [lia|done].
  - intros k Hk Hlt. unfold target.
    assert (q < k) by nia.
    apply Z.add_le_mono_l, Z.mul_le_mono_nonneg_l; lia.
Qed.

Lemma ceil_div_floor (a d : Z) :
  0 < d →
  ceil_div a d = if bool_decide (a `mod` d = 0) then a `div` d else a `div` d + 1.
Proof.
  intros Hd. unfold ceil_div.
  pose proof (Z.div_mod a d ltac:(lia)) as Ha.
  pose proof (Z.mod_pos_bound a d Hd) as Hra.
  pose proof (Z.div_mod (- a) d ltac:(lia)) as Hn.
  pose proof (Z.mod_pos_bound (- a) d Hd) as Hrn.
  case_bool_decide; nia.
Qed.

(** C1, as amended.  For an entity whose report exists and with no listed
    job of its own dated after [now], the job id is the timestamp id of
    [last_update_time + delay * intervals] with
    [intervals = max(1, 1 + floor((now - last_update_time) / delay))]; that
    instant is the least [last_update_time + delay * k], [k >= 1], strictly
    after [now]; it is the ceiling formula of the specification except when
    [now] is itself such a boundary, where it is one delay later; and the
    report of 100 with a delay of 30 gives 160 at 145. *)
Theorem next_job_id_is_next_time_frame db ids obj now last_update_time :
  0 < ANALYTICS_CHECK_JOB_DELAY →
  _get_last_report_time db obj = Ok (Some last_update_time) →
  (∀ j, j ∈ ids → startswith j (_make_queue_job_prefix obj) = true →
        ∃ t, get_timestamp (_make_queue_job_prefix obj) j = Ok t ∧ t ≤ now) →
  let intervals := Z.max 1 (1 + (now - last_update_time) `div` delay) in
  let target := last_update_time + delay * intervals in
  find_next_job_id db ids obj now = Ok (regular_id obj target) ∧
  now < target ∧
  (∃ k, 1 ≤ k ∧ target = last_update_time + delay * k) ∧
  (∀ k, 1 ≤ k → now < last_update_time + delay * k →
        target ≤ last_update_time + delay * k) ∧
  (target = if bool_decide ((now - last_update_time) `mod` delay = 0 ∧ last_update_time < now)
            then spec_target_time last_update_time delay now + delay
            else spec_target_time last_update_time delay now) ∧
  next_update_time 100 30 145 = Ok 160.
Proof.
  intros Hpos Hlast Hstale intervals target.
  assert (0 < delay) as Hd by (unfold _get_analytics_check_job_delay; lia).
  destruct (next_time_frame_arith last_update_time delay now Hd) as (Hlt & Hk & Hmin).
  split_and!; try done.
  - pose proof (find_next_job_id_cases db ids obj now) as Hcases.
    rewrite Hlast in Hcases.
    destruct Hcases as [(j & t & Hin & Hp & Ht & Hnow & _)|[_ ->]].
    + intros j Hin Hp. destruct (Hstale j Hin Hp) as (t & ? & _). eauto.
    + destruct (Hstale j Hin Hp) as (t' & Ht' & Hle).
      rewrite Ht in Ht'. injection Ht' as <-. lia.
    + unfold next_update_time. rewrite bool_decide_eq_false_2 by lia. done.
  - unfold target, intervals, spec_target_time, spec_intervals.
    rewrite (ceil_div_floor _ _ Hd).
    pose proof (Z.div_mod (now - last_update_time) delay ltac:(lia)) as Hdm.
    pose proof (Z.mod_pos_bound (now - last_update_time) delay Hd) as Hr.
    repeat case_bool_decide; nia.
Qed.

(** ** What is enqueued *)

Local Abbreviation schedule_autoupdate :=
  (schedule_analytics_report_autoupdate_job ANALYTICS_CHECK_JOB_DELAY timestamp_str
     fromtimestamp_float).
Local Abbreviation job_id_of_call :=
  (autoupdate_job_id ANALYTICS_CHECK_JOB_DELAY timestamp_str fromtimestamp_float).
Local Abbreviation enqueue_of_call :=
  (enqueue_target ANALYTICS_CHECK_JOB_DELAY timestamp_str fromtimestamp_float).
Local Abbreviation listing := (list_pending ANALYTICS_CHECK_JOB_DELAY).

Lemma lookup_insert_job q key j k :
  insert_job key j q !! k
  = if bool_decide (k = key) then Some (default j (q !! key)) else q !! k.
Proof.
  unfold insert_job. case_bool_decide as Hk.
  - subst k. destruct (q !! key) eqn:E; simpl; [done|]. by rewrite lookup_insert_eq.
  - destruct (q !! key) eqn:E; [done|]. by rewrite lookup_insert_ne.
Qed.

Lemma dom_insert_job q key j : dom (insert_job key j q) = {[key]} ∪ dom q.
Proof.
  unfold insert_job. destruct (q !! key) eqn:E.
  - assert (key ∈ dom q) as Hin by (by eapply elem_of_dom_2).
    apply set_eq. intros x. rewrite elem_of_union, elem_of_singleton.
    split; [by right|]. by intros [->|?].
  - by rewrite dom_insert_L.
Qed.

Lemma get_jobs_subseteq q until : get_jobs q until ⊆ dom q.
Proof. unfold get_jobs. apply dom_filter_subseteq. Qed.

(** The target of a call is a task or a project, and the payload names it. *)
Lemma autoupdate_target_payload job task project obj :
  (autoupdate_target job task project).1 = Some obj →
  (∃ t, obj = ObjTask t ∧
        (autoupdate_target job task project).2
        = {| cvat_job_id := None; cvat_task_id := Some (task_id t);
             cvat_project_id := None |})
  ∨ (∃ p, obj = ObjProject p ∧
          (autoupdate_target job task project).2
          = {| cvat_job_id := None; cvat_task_id := None;
               cvat_project_id := Some (project_id p) |}).
Proof.
  unfold autoupdate_target, target_of_task.
  destruct job as [j|]; [|destruct task as [t|]; [|destruct project as [p|]]]; simpl.
  - destruct (task_project _); simpl; intros [= <-]; eauto.
  - destruct (task_project _); simpl; intros [= <-]; eauto.
  - intros [= <-]; eauto.
  - done.
Qed.

(** C2, as amended.  When the job id a call settles on is not among the
    listed pending ids, the call enqueues once, under that id, a job due at
    the end of the window ([utcnow + delay], not the instant the id carries)
    whose payload is the id of the target task or project; the queue is
    otherwise as before.  When the id is listed, the queue is unchanged. *)
Theorem autoupdate_enqueues_once_at_window_end db q job task project now utcnow obj key :
  (autoupdate_target job task project).1 = Some obj →
  find_next_job_id db (get_jobs q (utcnow + delay)) obj now = Ok key →
  let payload :=
    {| cvat_job_id := None;
       cvat_task_id := match obj with ObjTask t => Some (task_id t) | _ => None end;
       cvat_project_id := match obj with ObjProject p => Some (project_id p) | _ => None end |} in
  let new_job :=
    {| func_kwargs := payload; meta := ∅; scheduled_time := Some (utcnow + delay);
       result_ttl := None; failure_ttl := None |} in
  (key ∈ get_jobs q (utcnow + delay) → schedule_autoupdate db q job task project now utcnow = Ok q)
  ∧ (key ∉ get_jobs q (utcnow + delay) →
     schedule_autoupdate db q job task project now utcnow
     = Ok (enqueue_at q (utcnow + delay) payload key)
     ∧ (∀ k, k ≠ key → enqueue_at q (utcnow + delay) payload key !! k = q !! k)
     ∧ (q !! key = None →
        enqueue_at q (utcnow + delay) payload key = <[key := new_job]> q
        ∧ size (enqueue_at q (utcnow + delay) payload key) = S (size q))).
Proof.
  intros Htarget Hkey payload new_job.
  assert ((autoupdate_target job task project).2 = payload) as Hpayload.
  { destruct (autoupdate_target_payload _ _ _ _ Htarget) as [(t & -> & ->)|(p & -> & ->)]; done. }
  unfold schedule_analytics_report_autoupdate_job, enqueue_target, autoupdate_job_id.
  rewrite Htarget. simpl. rewrite Hkey. simpl. rewrite Hpayload.
  split; intros Hin.
  - by rewrite bool_decide_eq_true_2.
  - rewrite bool_decide_eq_false_2 by done. split_and!; [done|..].
    + intros k Hk. unfold enqueue_at. rewrite lookup_insert_job.
      by rewrite bool_decide_eq_false_2.
    + intros Hnone. unfold enqueue_at, insert_job. rewrite Hnone.
      split; [done|]. by apply map_size_insert_None.
Qed.





(** ** Calls that settle on the same job id *)

Lemma insert_job_present q key j : key ∈ dom q → insert_job key j q = q.
Proof.
  intros [x Hx]%elem_of_dom. unfold insert_job. by rewrite Hx.
Qed.

Lemma insert_job_again q key j1 j2 :
  insert_job key j2 (insert_job key j1 q) = insert_job key j1 q.
Proof.
  apply insert_job_present. rewrite dom_insert_job.
  apply elem_of_union_l. by apply elem_of_singleton.
Qed.

(** A call leaves the queue as one [enqueue_at] under the id it settles on
    leaves it, also when that id was listed: the queue ignores it then. *)
Lemma enqueue_target_as_enqueue_at db q job task project l key :
  existing_job_ids l ⊆ dom q →
  job_id_of_call db job task project l = Ok key →
  enqueue_of_call db q job task project l
  = Ok (enqueue_at q (next_job_time l) (autoupdate_target job task project).2 key).
Proof.
  intros Hsub Hkey. unfold enqueue_target. rewrite Hkey. simpl.
  case_bool_decide as Hin; [|done].
  unfold enqueue_at. rewrite insert_job_present; [done|]. by apply Hsub.
Qed.

Section OneEntity.
Variable db : Reports.
Variables (job : option Job) (task : option Task) (project : option Project).
Variable obj : Obj.
Hypothesis Htarget : (autoupdate_target job task project).1 = Some obj.

Local Abbreviation prefix := (_make_queue_job_prefix obj).

Lemma job_id_of_call_find l :
  job_id_of_call db job task project l
  = find_next_job_id db (existing_job_ids l) obj (listing_now l).
Proof. unfold autoupdate_job_id. by rewrite Htarget. Qed.

(** *** No report yet *)

(** C3.  For an entity without a report the initial job id is never
    derived: line 71 raises before line 96 is reached.  Whatever ids are
    listed, [_find_next_job_id] raises, with [AttributeError] when the
    listed ids are well formed; so does every call of
    [schedule_analytics_report_autoupdate_job] for the entity, however many
    are made, and none of them places a job in the queue. *)
Theorem entity_without_report_is_never_scheduled (q : gmap string RqJob) now utcnow :
  analytics_report db obj = None →
  _get_last_report_time db obj = Raise AttributeError
  ∧ (∀ ids now', ∃ e, find_next_job_id db ids obj now' = Raise e)
  ∧ (∀ ids now', well_formed prefix ids →
       find_next_job_id db ids obj now' = Raise AttributeError)
  ∧ (∃ e, schedule_autoupdate db q job task project now utcnow = Raise e)
  ∧ (well_formed prefix (get_jobs q (utcnow + delay)) →
       schedule_autoupdate db q job task project now utcnow = Raise AttributeError)
  ∧ (∀ calls, calls ≠ [] →
       ∃ e, run_autoupdate ANALYTICS_CHECK_JOB_DELAY timestamp_str fromtimestamp_float
              db q job task project calls = Raise e).
Proof.
  intros Hnone.
  assert (_get_last_report_time db obj = Raise AttributeError) as Hlast.
  { unfold _get_last_report_time. by rewrite Hnone. }
  assert (∀ ids now', ∃ e, find_next_job_id db ids obj now' = Raise e) as Hraise.
  { intros ids now'. unfold _find_next_job_id.
    destruct (py_max _ _) as [mj|e]; simpl; [|by eauto].
    destruct (match mj with Some _ => _ | None => _ end) as [mt|e]; simpl; [|by eauto].
    rewrite Hlast. simpl. by eauto. }
  assert (∀ ids now', well_formed prefix ids →
            find_next_job_id db ids obj now' = Raise AttributeError) as Hattr.
  { intros ids now' Hwf. pose proof (find_next_job_id_cases db ids obj now' Hwf) as H.
    by rewrite Hlast in H. }
  split_and!; [done..| | |].
  - destruct (Hraise (get_jobs q (utcnow + delay)) now) as [e He]. exists e.
    unfold schedule_analytics_report_autoupdate_job, enqueue_target.
    rewrite job_id_of_call_find. simpl. by rewrite He.
  - intros Hwf. unfold schedule_analytics_report_autoupdate_job, enqueue_target.
    rewrite job_id_of_call_find. simpl. by rewrite Hattr.
  - intros [|[now1 utcnow1] calls] Hne; [done|].
    destruct (Hraise (get_jobs q (utcnow1 + delay)) now1) as [e He]. exists e.
    simpl. rewrite job_id_of_call_find. simpl. by rewrite He.
Qed.

(** *** A report computed at [t0] *)

Section Window.
Variable t0 : Z.
Hypothesis Hdelay : 0 < ANALYTICS_CHECK_JOB_DELAY.
Hypothesis Hlast : _get_last_report_time db obj = Ok (Some t0).
Hypothesis Hstr : timestamp_str (t0 + delay) ≠ "initial".
Hypothesis Hfloat : fromtimestamp_float (timestamp_str (t0 + delay)) = Some (t0 + delay).

Local Abbreviation window_id := (regular_id obj (t0 + delay)).

(** The jobs of the entity are the one of the window and jobs dated no
    later than the report. *)
Local Abbreviation coalesced q :=
  (∀ k, k ∈ dom q → startswith k prefix = true →
        k = window_id ∨ ∃ t, get_timestamp prefix k = Ok t ∧ t ≤ t0).

Lemma delay_pos : 0 < delay.
Proof. unfold _get_analytics_check_job_delay. lia. Qed.

Lemma coalesced_well_formed (q : gmap string RqJob) (ids : gset string) :
  coalesced q → ids ⊆ dom q → well_formed prefix ids.
Proof.
  intros Hq Hsub k Hk Hp. destruct (Hq k (Hsub k Hk) Hp) as [->|(t & Ht & _)]; [|eauto].
  eexists. by apply get_timestamp_regular.
Qed.

Lemma coalesced_enqueue (q : gmap string RqJob) time kwargs :
  coalesced q → coalesced (enqueue_at q time kwargs window_id).
Proof.
  intros Hq k. unfold enqueue_at. rewrite dom_insert_job.
  intros [->%elem_of_singleton|Hk]%elem_of_union Hp; [by left|by apply Hq].
Qed.

Lemma job_id_in_window (q : gmap string RqJob) now utcnow :
  coalesced q → t0 ≤ now < t0 + delay →
  job_id_of_call db job task project (listing q now utcnow) = Ok window_id.
Proof.
  intros Hq Hnow. rewrite job_id_of_call_find. simpl.
  pose proof (find_next_job_id_cases db (get_jobs q (utcnow + delay)) obj now) as Hcases.
  rewrite Hlast in Hcases.
  destruct Hcases as [(j & t & Hin & Hp & Ht & Hlt & _ & ->)|[_ ->]].
  - eapply coalesced_well_formed; [done|apply get_jobs_subseteq].
  - destruct (Hq j) as [->|(t' & Ht' & Hle)]; [by eapply get_jobs_subseteq|done..|].
    rewrite Ht in Ht'. injection Ht' as <-. lia.
  - unfold next_update_time. rewrite bool_decide_eq_false_2 by (pose proof delay_pos; lia).
    simpl. rewrite Z.div_small by lia. do 2 f_equal. lia.
Qed.

Lemma job_id_after_window (q : gmap string RqJob) now utcnow :
  coalesced q → t0 + delay < now →
  ∃ T, job_id_of_call db job task project (listing q now utcnow) = Ok (regular_id obj T)
       ∧ now < T.
Proof.
  intros Hq Hnow. rewrite job_id_of_call_find. simpl.
  pose proof (find_next_job_id_cases db (get_jobs q (utcnow + delay)) obj now) as Hcases.
  rewrite Hlast in Hcases.
  destruct Hcases as [(j & t & Hin & Hp & Ht & Hlt & _ & _)|[_ ->]].
  - eapply coalesced_well_formed; [done|apply get_jobs_subseteq].
  - destruct (Hq j) as [->|(t' & Ht' & Hle)]; [by eapply get_jobs_subseteq|done|..].
    + rewrite get_timestamp_regular in Ht by done. injection Ht as Ht. lia.
    + rewrite Ht in Ht'. injection Ht' as Ht'. pose proof delay_pos. lia.
  - unfold next_update_time. rewrite bool_decide_eq_false_2 by (pose proof delay_pos; lia).
    simpl. eexists. split; [done|].
    apply (next_time_frame_arith t0 delay now delay_pos).
Qed.

Lemma run_autoupdate_in_window calls (q : gmap string RqJob) :
  coalesced q →
  Forall (λ c, t0 ≤ c.1 < t0 + delay) calls →
  ∃ q', run_autoupdate ANALYTICS_CHECK_JOB_DELAY timestamp_str fromtimestamp_float
          db q job task project calls
        = Ok (replicate (length calls) window_id, q')
        ∧ coalesced q'
        ∧ q' = match calls with
               | [] => q
               | (_, utcnow) :: _ =>
                   enqueue_at q (utcnow + delay) (autoupdate_target job task project).2
                     window_id
               end.
Proof.
  revert q; induction calls as [|[now utcnow] calls IH]; intros q Hq Hcalls.
  - exists q. done.
  - apply Forall_cons in Hcalls as [Hnow Hcalls]. simpl in Hnow.
    pose proof (job_id_in_window q now utcnow Hq Hnow) as Hkey.
    assert (schedule_autoupdate db q job task project now utcnow
            = Ok (enqueue_at q (utcnow + delay) (autoupdate_target job task project).2
                    window_id)) as Hsched.
    { unfold schedule_analytics_report_autoupdate_job.
      erewrite enqueue_target_as_enqueue_at; [done| |exact Hkey].
      apply get_jobs_subseteq. }
    destruct (IH _ (coalesced_enqueue q (utcnow + delay)
                      (autoupdate_target job task project).2 Hq) Hcalls)
      as (q' & Hrun & Hq' & Heq).
    exists q'. simpl. rewrite Hkey. simpl. rewrite Hsched. simpl. rewrite Hrun. simpl.
    split_and!; [done..|].
    rewrite Heq. destruct calls as [|[now' utcnow'] calls']; [done|].
    apply insert_job_again.
Qed.

Lemma elem_of_get_jobs (q : gmap string RqJob) until k :
  k ∈ get_jobs q until ↔ ∃ j, q !! k = Some j ∧ is_pending_until until j = true.
Proof.
  unfold get_jobs. rewrite elem_of_dom. split.
  - intros [j [Hj Hp]%map_lookup_filter_Some]. eauto.
  - intros (j & Hj & Hp). exists j. by apply map_lookup_filter_Some.
Qed.

(** A queue without a job of the entity dated after [t0] does not hold the
    job of the window. *)
Lemma window_id_not_pending (q0 : gmap string RqJob) :
  (∀ k, k ∈ dom q0 → startswith k prefix = true →
        ∃ t, get_timestamp prefix k = Ok t ∧ t ≤ t0) →
  window_id ∉ dom q0.
Proof.
  intros Hq0 Hin. destruct (Hq0 window_id Hin) as (t & Ht & Hle); [apply startswith_app|].
  rewrite get_timestamp_regular in Ht by done. injection Ht as <-.
  pose proof delay_pos. lia.
Qed.

(** Once the job of the window is in the queue, due at [due], a call in the
    window whose listing reaches [due] finds it listed, settles on it and
    leaves the queue as it is: lines 99-100 and the test of line 145. *)
Lemma pending_window_job_is_reused (q : gmap string RqJob) rq_job due now utcnow :
  coalesced q → q !! window_id = Some rq_job → scheduled_time rq_job = Some due →
  due ≤ utcnow + delay → t0 ≤ now < t0 + delay →
  window_id ∈ existing_job_ids (listing q now utcnow)
  ∧ job_id_of_call db job task project (listing q now utcnow) = Ok window_id
  ∧ schedule_autoupdate db q job task project now utcnow = Ok q.
Proof.
  intros Hq Hjob Hdue Hle Hnow.
  assert (window_id ∈ existing_job_ids (listing q now utcnow)) as Hin.
  { simpl. apply elem_of_get_jobs. exists rq_job. split; [done|].
    unfold is_pending_until. rewrite Hdue. by apply bool_decide_eq_true_2. }
  pose proof (job_id_in_window q now utcnow Hq Hnow) as Hkey.
  split_and!; [done..|].
  unfold schedule_analytics_report_autoupdate_job, enqueue_target.
  rewrite Hkey. simpl. by rewrite bool_decide_eq_true_2.
Qed.

(** C4, as amended.  With the report computed at [t0] and no job of the
    entity dated after [t0] in the queue, calls one after the other at
    instants of [[t0, t0 + delay)] all settle on the job id of
    [t0 + delay]; the queue they leave is the one the first of them left:
    the first call creates the job, which was not in the queue, due one
    delay after its reading of the clock, and every call in the window
    that reads the clock no earlier finds that job listed, settles on it
    and leaves the queue as it is; and a call at [t0 + delay + eps],
    [eps > 0], settles on the id of a later instant. *)
Theorem calls_in_window_coalesce (q0 : gmap string RqJob) calls :
  (∀ k, k ∈ dom q0 → startswith k prefix = true →
        ∃ t, get_timestamp prefix k = Ok t ∧ t ≤ t0) →
  Forall (λ c, t0 ≤ c.1 < t0 + delay) calls →
  ∃ q', run_autoupdate ANALYTICS_CHECK_JOB_DELAY timestamp_str fromtimestamp_float
          db q0 job task project calls
        = Ok (replicate (length calls) window_id, q')
        ∧ q' = match calls with
               | [] => q0
               | (_, utcnow) :: _ =>
                   enqueue_at q0 (utcnow + delay) (autoupdate_target job task project).2
                     window_id
               end
        ∧ get_timestamp prefix window_id = Ok (t0 + delay)
        ∧ (window_id ∉ dom q0)
        ∧ (∀ now1 utcnow1 calls', calls = (now1, utcnow1) :: calls' →
             scheduled_time <$> (q' !! window_id) = Some (Some (utcnow1 + delay))
             ∧ ∀ now utcnow, t0 ≤ now < t0 + delay → utcnow1 ≤ utcnow →
                 window_id ∈ existing_job_ids (listing q' now utcnow)
                 ∧ job_id_of_call db job task project (listing q' now utcnow) = Ok window_id
                 ∧ schedule_autoupdate db q' job task project now utcnow = Ok q')
        ∧ ∀ eps utcnow, 0 < eps →
            ∃ T, job_id_of_call db job task project (listing q' (t0 + delay + eps) utcnow)
                 = Ok (regular_id obj T)
                 ∧ t0 + delay < T.
Proof.
  intros Hq0 Hcalls.
  pose proof (window_id_not_pending q0 Hq0) as Hnew.
  destruct (run_autoupdate_in_window calls q0) as (q' & Hrun & Hq' & Heq); [by right; auto|done|].
  exists q'. split_and!; [done..|by apply get_timestamp_regular|done| |].
  - intros now1 utcnow1 calls' ->.
    assert (q' !! window_id
            = Some {| func_kwargs := (autoupdate_target job task project).2; meta := ∅;
                      scheduled_time := Some (utcnow1 + delay);
                      result_ttl := None; failure_ttl := None |}) as Hjob.
    { rewrite Heq. unfold enqueue_at, insert_job.
      apply not_elem_of_dom in Hnew. rewrite Hnew. apply lookup_insert_eq. }
    split; [by rewrite Hjob|].
    intros now utcnow Hnow Hclock.
    eapply pending_window_job_is_reused; [done|exact Hjob|done|simpl; lia|done].
  - intros eps utcnow Heps.
    destruct (job_id_after_window q' (t0 + delay + eps) utcnow Hq') as (T & HT & Hlt); [lia|].
    exists T. split; [done|lia].
Qed.
End Window.
End OneEntity.
End SchedulerProperties.


(** ** The scheduler on the sample data *)

Lemma next_job_id_is_next_time_frame_witness :
  _find_next_job_id sample_delay decimal_timestamp_str decimal_fromtimestamp
    sample_reports {[ "update-analytics-report-task-1-initial" ]}
    (ObjTask sample_task) 145000000
  = Ok "update-analytics-report-task-1-160.0".
Proof.
  refine (proj1 (next_job_id_is_next_time_frame sample_delay decimal_timestamp_str
                   decimal_fromtimestamp sample_reports _ (ObjTask sample_task)
                   145000000 100000000 _ _ _)).
  - unfold sample_delay. lia.
  - reflexivity.
  - intros j Hj _. apply elem_of_singleton in Hj. subst j.
    exists datetime_min. split; [reflexivity|]. unfold datetime_min. lia.
Defined.

(** C1, the claim as stated fails: with the report at 100 and a delay of 30,
    a call at 130 gets the time frame 160, where the ceiling formula gives
    130, which is not after the call. *)
Lemma ceiling_formula_misses_boundary :
  next_update_time 100 30 130 = Ok 160
  ∧ spec_target_time 100 30 130 = 130
  ∧ ¬ (130 < spec_target_time 100 30 130).
Proof. split_and!; [reflexivity..|]. vm_compute. by intros [=]. Qed.

Lemma autoupdate_enqueues_once_at_window_end_witness :
  schedule_analytics_report_autoupdate_job sample_delay decimal_timestamp_str
    decimal_fromtimestamp sample_reports ∅ None (Some sample_task) None
    145000000 145000000
  = Ok {[ "update-analytics-report-task-1-160.0" := sample_window_job ]}.
Proof.
  refine (proj1 (proj2 (autoupdate_enqueues_once_at_window_end sample_delay
                          decimal_timestamp_str decimal_fromtimestamp sample_reports ∅
                          None (Some sample_task) None 145000000 145000000
                          (ObjTask sample_task) "update-analytics-report-task-1-160.0"
                          _ _) _)).
  - reflexivity.
  - vm_compute. reflexivity.
  - unfold get_jobs. rewrite map_filter_empty, dom_empty_L. apply not_elem_of_empty.
Defined.

(** C2, the claim as stated fails: the job enqueued under the id of second
    160 is due at second 175, the end of the window of a call at 145. *)
Lemma autoupdate_job_not_due_at_id_time :
  schedule_analytics_report_autoupdate_job sample_delay decimal_timestamp_str
    decimal_fromtimestamp sample_reports ∅ None (Some sample_task) None
    145000000 145000000
  = Ok {[ "update-analytics-report-task-1-160.0" := sample_window_job ]}
  ∧ _get_timestamp decimal_fromtimestamp "update-analytics-report-task-1-"
      "update-analytics-report-task-1-160.0" = Ok 160000000
  ∧ scheduled_time sample_window_job = Some 175000000
  ∧ scheduled_time sample_window_job ≠ Some 160000000.
Proof.
  split_and!.
  - vm_compute. reflexivity.
  - vm_compute. reflexivity.
  - reflexivity.
  - simpl. by intros [=].
Qed.


Lemma entity_without_report_is_never_scheduled_witness :
  schedule_analytics_report_autoupdate_job sample_delay decimal_timestamp_str
    decimal_fromtimestamp no_reports ∅ (Some sample_job) None None 10000000 10000001
  = Raise AttributeError.
Proof.
  refine (proj1 (proj2 (proj2 (proj2 (proj2
            (entity_without_report_is_never_scheduled sample_delay decimal_timestamp_str
               decimal_fromtimestamp no_reports (Some sample_job) None None
               (ObjTask sample_task) eq_refl ∅ 10000000 10000001 eq_refl))))) _).
  intros k Hk. unfold get_jobs in Hk.
  rewrite map_filter_empty, dom_empty_L in Hk. by apply not_elem_of_empty in Hk.
Defined.

(** C4, the claim as stated fails: the report of [sample_task] is of second
    150.000003 and a job of an earlier time frame, dated second 160, is
    still pending; of two calls in the window of the report, the one at
    second 155 settles on that job and the one at second 165 on the job of
    second 180.000003, which it adds to the queue. *)
Lemma pending_job_inside_window_splits_calls :
  _get_last_report_time recomputed_reports (ObjTask sample_task) = Ok (Some 150000003)
  ∧ 150000003 ≤ 155000000 < 150000003 + _get_analytics_check_job_delay sample_delay
  ∧ 150000003 ≤ 165000000 < 150000003 + _get_analytics_check_job_delay sample_delay
  ∧ run_autoupdate sample_delay decimal_timestamp_str decimal_fromtimestamp
      recomputed_reports {[ "update-analytics-report-task-1-160.0" := sample_window_job ]}
      None (Some sample_task) None [(155000000, 155000000); (165000000, 165000000)]
    = Ok (["update-analytics-report-task-1-160.0";
           "update-analytics-report-task-1-180.000003"],
          {[ "update-analytics-report-task-1-160.0" := sample_window_job;
             "update-analytics-report-task-1-180.000003" := sample_task_job 195000000 ]})
  ∧ "update-analytics-report-task-1-160.0" ≠ "update-analytics-report-task-1-180.000003".
Proof.
  split_and!; try (unfold _get_analytics_check_job_delay, sample_delay; lia).
  - reflexivity.
  - vm_compute. reflexivity.
  - by intros [=].
Qed.

Lemma calls_in_window_coalesce_witness :
  ∃ q',
    run_autoupdate sample_delay decimal_timestamp_str decimal_fromtimestamp
      sample_reports {[ "update-analytics-report-task-1-100.0" := sample_task_job 60000000 ]}
      (Some sample_job) None None
      [(100000000, 100000001); (110000000, 110000001); (129999999, 130000000)]
    = Ok (replicate 3 "update-analytics-report-task-1-130.0", q')
    ∧ "update-analytics-report-task-1-130.0"
      ∈ get_jobs q' (130000000 + _get_analytics_check_job_delay sample_delay)
    ∧ schedule_analytics_report_autoupdate_job sample_delay decimal_timestamp_str
        decimal_fromtimestamp sample_reports q' (Some sample_job) None None
        129999999 130000000
      = Ok q'.
Proof.
  destruct (calls_in_window_coalesce sample_delay decimal_timestamp_str
              decimal_fromtimestamp sample_reports (Some sample_job) None None
              (ObjTask sample_task) eq_refl 100000000 ltac:(unfold sample_delay; lia)
              eq_refl ltac:(vm_compute; by intros [=]) ltac:(vm_compute; reflexivity)
              {[ "update-analytics-report-task-1-100.0" := sample_task_job 60000000 ]}
              [(100000000, 100000001); (110000000, 110000001); (129999999, 130000000)])
    as (q' & Hrun & _ & _ & _ & Hreuse & _).
  - intros k Hk _. rewrite dom_singleton_L in Hk. apply elem_of_singleton in Hk. subst k.
    exists 100000000. split; [vm_compute; reflexivity|lia].
  - repeat constructor; simpl; unfold _get_analytics_check_job_delay, sample_delay; lia.
  - destruct (Hreuse _ _ _ eq_refl) as [_ Hlater].
    destruct (Hlater 129999999 130000000) as (Hin & _ & Hsame).
    { unfold _get_analytics_check_job_delay, sample_delay. lia. }
    { lia. }
    exists q'. split_and!; [exact Hrun|exact Hin|exact Hsame].
Defined.

(** ** On-demand check jobs *)

Lemma get_analytics_check_job_enqueue_at q time kwargs key k :
  get_analytics_check_job (enqueue_at q time kwargs key) k = get_analytics_check_job q k.
Proof.
  unfold get_analytics_check_job, fetch_job, enqueue_at. rewrite lookup_insert_job.
  case_bool_decide as Hk; [|done]. subst k.
  destruct (q !! key) as [x|] eqn:E; simpl; [done|].
  unfold is_custom_analytics_check_job. simpl.
  rewrite lookup_empty. by rewrite bool_decide_eq_false_2.
Qed.

(** C9.  [get_analytics_check_job] returns a job exactly when the queue
    has a job under the id and its [job_type] tag is that of the on-demand
    checks: nothing for an id that is not in the queue, nothing new once an
    update job is enqueued by the scheduler, whatever the id asked for, and
    the on-demand job itself under a fresh id. *)
Theorem get_analytics_check_job_only_custom (q : gmap string RqJob) (rq_id : string) :
  (∀ rq_job,
     get_analytics_check_job q rq_id = Some rq_job
     ↔ fetch_job q rq_id = Some rq_job
       ∧ meta rq_job !! "job_type" = Some (MetaStr _RQ_CUSTOM_ANALYTICS_CHECK_JOB_TYPE))
  ∧ (fetch_job q rq_id = None → get_analytics_check_job q rq_id = None)
  ∧ (∀ delay_seconds timestamp_str fromtimestamp_float db job task project now utcnow q',
       schedule_analytics_report_autoupdate_job delay_seconds timestamp_str
         fromtimestamp_float db q job task project now utcnow = Ok q' →
       get_analytics_check_job q' rq_id = get_analytics_check_job q rq_id)
  ∧ (∀ job task project user_id,
       fetch_job q rq_id = None →
       ∃ rq_job,
         get_analytics_check_job
           (schedule_analytics_check_job q rq_id job task project user_id).2 rq_id
         = Some rq_job
         ∧ meta rq_job !! "user_id" = Some (MetaInt user_id)
         ∧ scheduled_time rq_job = None).
Proof.
  split_and!.
  - intros rq_job. unfold get_analytics_check_job, is_custom_analytics_check_job.
    destruct (fetch_job q rq_id) as [j|]; [|split; [done|by intros [? _]]].
    case_bool_decide as Htag; simpl; split.
    + by intros [= ->].
    + by intros [[= ->] _].
    + done.
    + intros [[= ->] ?]. done.
  - intros Hnone. unfold get_analytics_check_job. by rewrite Hnone.
  - intros delay_seconds timestamp_str fromtimestamp_float db job task project now utcnow q'.
    unfold schedule_analytics_report_autoupdate_job, enqueue_target.
    destruct (autoupdate_job_id _ _ _ _ _ _ _ _) as [key|e]; simpl; [|done].
    case_bool_decide; intros [= <-]; [done|].
    apply get_analytics_check_job_enqueue_at.
  - intros job task project user_id Hnone. unfold fetch_job in Hnone.
    unfold schedule_analytics_check_job, enqueue, insert_job. simpl.
    rewrite Hnone. unfold get_analytics_check_job, fetch_job.
    rewrite lookup_insert_eq. unfold is_custom_analytics_check_job. simpl.
    assert (∀ v : MetaValue,
              ({[ "user_id" := MetaInt user_id; "job_type" := v ]} : gmap string MetaValue)
                !! "job_type" = Some v) as Htag.
    { intros v. rewrite lookup_insert_ne by done. apply lookup_singleton_eq. }
    rewrite bool_decide_eq_true_2 by apply Htag. simpl.
    eexists. split_and!; [reflexivity| |reflexivity].
    simpl. apply lookup_insert_eq.
Qed.

Lemma get_analytics_check_job_only_custom_witness :
  get_analytics_check_job
    {[ "update-analytics-report-task-1-160.0" := sample_window_job ]}
    "update-analytics-report-task-1-160.0" = None
  ∧ get_analytics_check_job
      {[ "update-analytics-report-task-1-160.0" := sample_window_job ]}
      "0123456789abcdef0123456789abcdef" = None.
Proof.
  split.
  - rewrite (proj1 (proj2 (proj2 (get_analytics_check_job_only_custom ∅
                 "update-analytics-report-task-1-160.0")))
               sample_delay decimal_timestamp_str decimal_fromtimestamp sample_reports
               None (Some sample_task) None 145000000 145000000
               {[ "update-analytics-report-task-1-160.0" := sample_window_job ]}).
    + reflexivity.
    + vm_compute. reflexivity.
  - apply (proj1 (proj2 (get_analytics_check_job_only_custom
                   {[ "update-analytics-report-task-1-160.0" := sample_window_job ]}
                   "0123456789abcdef0123456789abcdef"))).
    vm_compute. reflexivity.
Defined.

(** ** The computation of reports *)

Section EngineProperties.
Variable tasks : Project → list Task.
Variable segment_set : Task → list Segment.
Variable job_set : Segment → list Job.
Variable calculate : Metric → result Json.
Variable metric_title metric_description metric_granularity
  metric_default_view metric_transformations : MetricClass → Json.
Variable tick : Z → Z.

Local Abbreviation compute_job :=
  (_compute_report_for_job calculate metric_title metric_description metric_granularity
     metric_default_view metric_transformations tick).
Local Abbreviation compute_task :=
  (_compute_report_for_task segment_set job_set calculate metric_title metric_description
     metric_granularity metric_default_view metric_transformations tick).
Local Abbreviation compute_project :=
  (_compute_report_for_project tasks segment_set job_set calculate metric_title
     metric_description metric_granularity metric_default_view metric_transformations tick).
Local Abbreviation statistics_entry :=
  (_get_statistics_entry calculate metric_title metric_description metric_granularity
     metric_default_view metric_transformations).
Local Abbreviation entry_of c d :=
  {| title := metric_title c; description := metric_description c;
     granularity := metric_granularity c; default_view := metric_default_view c;
     transformations := metric_transformations c; dataseries := d |}.
Local Abbreviation aggregate_of :=
  (aggregate calculate metric_title metric_description metric_granularity
     metric_default_view metric_transformations).

Lemma bind_M_eq {A B} (m : M A) (k : A → M B) s :
  (m ≫= k) s
  = match m s with
    | (s', Ok a) => k a s'
    | (s', Raise e) => (s', Raise e)
    end.
Proof. reflexivity. Qed.

Lemma get_or_create_Some obj r s :
  analytics_report (reports s) obj = Some r →
  get_or_create tick obj s = (s, Ok (r, false)).
Proof.
  intros H. unfold get_or_create. rewrite bind_M_eq.
  unfold getattr_analytics_report. by rewrite H.
Qed.

Lemma get_or_create_None obj s :
  analytics_report (reports s) obj = None →
  get_or_create tick obj s
  = ({| reports :=
          set_report obj {| created_date := tick (clock s); statistics := ∅ |}
            (set_report obj {| created_date := clock s; statistics := ∅ |} (reports s));
        clock := tick (tick (clock s));
        calculated := calculated s |},
     Ok ({| created_date := tick (clock s); statistics := ∅ |}, true)).
Proof.
  intros H. unfold get_or_create. rewrite bind_M_eq.
  unfold getattr_analytics_report. by rewrite H.
Qed.

(** C5.  When the report of a job, of a task or of a project exists and is
    not older than the last update of the entity, the computation returns
    that report and leaves the state as it was: no report is written and no
    [calculate()] is invoked; a task or a project does not visit its
    children either. *)
Theorem fresh_report_is_returned_unchanged s r :
  (∀ db_job,
     analytics_report (reports s) (ObjJob db_job) = Some r →
     job_updated_date db_job ≤ created_date r →
     compute_job db_job s = (s, Ok r))
  ∧ (∀ db_task,
       analytics_report (reports s) (ObjTask db_task) = Some r →
       task_updated_date db_task ≤ created_date r →
       compute_task db_task s = (s, Ok r))
  ∧ (∀ db_project,
       analytics_report (reports s) (ObjProject db_project) = Some r →
       project_updated_date db_project ≤ created_date r →
       compute_project db_project s = (s, Ok r)).
Proof.
  split_and!; intros x Hr Hfresh.
  - unfold _compute_report_for_job. rewrite bind_M_eq, (get_or_create_Some _ r) by done.
    by rewrite bool_decide_eq_false_2 by lia.
  - unfold _compute_report_for_task. rewrite bind_M_eq, (get_or_create_Some _ r) by done.
    by rewrite bool_decide_eq_false_2 by lia.
  - unfold _compute_report_for_project. rewrite bind_M_eq, (get_or_create_Some _ r) by done.
    by rewrite bool_decide_eq_false_2 by lia.
Qed.

Lemma statistics_entry_Ok m d s :
  calculate m = Ok d →
  statistics_entry m s
  = ({| reports := reports s; clock := clock s; calculated := calculated s ++ [m] |},
     Ok (entry_of (metric_class m) d)).
Proof. intros H. unfold _get_statistics_entry. by rewrite H. Qed.

Lemma statistics_entry_Raise m e s :
  calculate m = Raise e →
  statistics_entry m s
  = ({| reports := reports s; clock := clock s; calculated := calculated s ++ [m] |},
     Raise e).
Proof. intros H. unfold _get_statistics_entry. by rewrite H. Qed.

Lemma primary_annotation_speed (e1 e2 e3 : StatisticsEntry) :
  getitem (<["annotation_time" := e3]> (<["annotation_speed" := e2]> (<["objects" := e1]> ∅)))
    "annotation_speed" = Ok e2.
Proof.
  unfold getitem. rewrite lookup_insert_ne by done. by rewrite lookup_insert_eq.
Qed.

Lemma analytics_report_set_report obj r db :
  analytics_report (set_report obj r db) obj = Some r.
Proof. destruct obj; simpl; apply lookup_insert_eq. Qed.

(** C6.  For a job without a report whose five metrics calculate, the
    computation returns and stores a report dated by the save that persists
    the statistics (the third reading of the clock); its statistics have
    exactly the entries [objects], [annotation_speed], [annotation_time],
    [total_annotation_speed] and [total_object_count], each with the
    attributes of its metric class and the data its [calculate()] returned,
    hence not null when no metric returns null; the two derived metrics are
    given the [annotation_speed] entry just computed; the metrics are
    calculated once each, primary ones first. *)
Theorem job_report_is_created s db_job d_objects d_speed d_time d_total_speed d_total_count :
  let metric c input :=
    {| metric_class := c; metric_obj := ObjJob db_job; metric_input := input |} in
  let primary := PrimaryStatistics (entry_of JobAnnotationSpeed d_speed) in
  analytics_report (reports s) (ObjJob db_job) = None →
  calculate (metric JobObjects NoStatistics) = Ok d_objects →
  calculate (metric JobAnnotationSpeed NoStatistics) = Ok d_speed →
  calculate (metric JobAnnotationTime NoStatistics) = Ok d_time →
  calculate (metric JobTotalAnnotationSpeed primary) = Ok d_total_speed →
  calculate (metric JobTotalObjectCount primary) = Ok d_total_count →
  let stats : gmap string StatisticsEntry :=
    <["total_object_count" := entry_of JobTotalObjectCount d_total_count]>
      (<["total_annotation_speed" := entry_of JobTotalAnnotationSpeed d_total_speed]>
         (<["annotation_time" := entry_of JobAnnotationTime d_time]>
            (<["annotation_speed" := entry_of JobAnnotationSpeed d_speed]>
               (<["objects" := entry_of JobObjects d_objects]> ∅)))) in
  let report := {| created_date := tick (tick (clock s)); statistics := stats |} in
  ∃ s',
    compute_job db_job s = (s', Ok report)
    ∧ analytics_report (reports s') (ObjJob db_job) = Some report
    ∧ calculated s'
      = calculated s ++
        [metric JobObjects NoStatistics; metric JobAnnotationSpeed NoStatistics;
         metric JobAnnotationTime NoStatistics; metric JobTotalAnnotationSpeed primary;
         metric JobTotalObjectCount primary]
    ∧ dom stats
      = {[ "objects"; "annotation_speed"; "annotation_time"; "total_annotation_speed";
           "total_object_count" ]}
    ∧ (d_objects ≠ JNull → d_speed ≠ JNull → d_time ≠ JNull →
       d_total_speed ≠ JNull → d_total_count ≠ JNull →
       ∀ key entry, stats !! key = Some entry → dataseries entry ≠ JNull).
Proof.
  intros metric primary Hnone H1 H2 H3 H4 H5 stats report.
  eexists. split_and!.
  - unfold _compute_report_for_job.
    rewrite bind_M_eq, get_or_create_None by done.
    rewrite orb_true_r.
    rewrite bind_M_eq, (statistics_entry_Ok _ _ _ H1).
    rewrite bind_M_eq, (statistics_entry_Ok _ _ _ H2).
    rewrite bind_M_eq, (statistics_entry_Ok _ _ _ H3).
    rewrite bind_M_eq. unfold lift at 1. rewrite primary_annotation_speed.
    rewrite bind_M_eq. unfold lift at 1.
    rewrite bind_M_eq, (statistics_entry_Ok _ _ _ H4).
    rewrite bind_M_eq, (statistics_entry_Ok _ _ _ H5).
    unfold save. simpl. reflexivity.
  - simpl. apply lookup_insert_eq.
  - simpl. rewrite <-!app_assoc. reflexivity.
  - unfold stats. rewrite !dom_insert_L, dom_empty_L.
    apply set_eq. intros k. rewrite !elem_of_union, !elem_of_singleton, elem_of_empty.
    tauto.
  - intros N1 N2 N3 N4 N5 key entry. unfold stats.
    rewrite !lookup_insert, lookup_empty.
    repeat case_decide; intros [= <-]; done.
Qed.

(** *** Relations that every step of a computation respects *)

Section Respects.
Variable R : EngineState → EngineState → Prop.
Variable normal_only : bool.
Hypothesis R_refl : ∀ s, R s s.
Hypothesis R_trans : ∀ s1 s2 s3, R s1 s2 → R s2 s3 → R s1 s3.

Lemma respects_ret {A} (a : A) : respects R normal_only (mret a).
Proof. intros s. apply R_refl. Qed.

Lemma respects_lift {A} (r : result A) : respects R normal_only (lift r).
Proof. intros s. unfold lift. destruct r; [|destruct normal_only]; auto. Qed.

Lemma respects_bind {A B} (m : M A) (k : A → M B) :
  respects R normal_only m → (∀ a, respects R normal_only (k a)) →
  respects R normal_only (m ≫= k).
Proof.
  intros Hm Hk s. rewrite bind_M_eq. specialize (Hm s).
  destruct (m s) as [s1 [a|e]]; [|done].
  specialize (Hk a s1). destruct (k a s1) as [s2 [b|e]]; [by eapply R_trans|].
  destruct normal_only; [done|by eapply R_trans].
Qed.

Lemma respects_for_each {A B} (f : A → M B) l :
  (∀ a, respects R normal_only (f a)) → respects R normal_only (for_each f l).
Proof.
  intros Hf. induction l as [|a l IH]; simpl; [apply respects_ret|].
  apply respects_bind; [done|]. intros b.
  apply respects_bind; [done|]. intros bs. apply respects_ret.
Qed.

Lemma respects_getattr obj : respects R normal_only (getattr_analytics_report obj).
Proof. intros s. apply R_refl. Qed.

Lemma respects_refresh obj : respects R normal_only (refresh_from_db obj).
Proof.
  intros s. unfold refresh_from_db.
  destruct (analytics_report _ _); [|destruct normal_only]; auto.
Qed.

Hypothesis R_entry : ∀ m, respects R normal_only (statistics_entry m).

Ltac respects_steps save_lemma :=
  repeat
    (cbv zeta;
     match goal with
     | |- respects _ _ (mret _) => apply respects_ret
     | |- respects _ _ (lift _) => apply respects_lift
     | |- respects _ _ (getattr_analytics_report _) => apply respects_getattr
     | |- respects _ _ (refresh_from_db _) => apply respects_refresh
     | |- respects _ _ (_get_statistics_entry _ _ _ _ _ _ _) => apply R_entry
     | |- respects _ _ (save _ _ _) => apply save_lemma
     | |- respects _ _ (for_each _ _) => apply respects_for_each; intros ?
     | |- respects _ _ (_ ≫= _) => apply respects_bind; [|intros ?]
     | |- respects _ _ (let '(_, _) := ?x in _) => destruct x
     | |- respects _ _ (if ?c then _ else _) => destruct c
     | |- respects _ _ (match ?x with Some _ => _ | None => _ end) => destruct x
     end).

Lemma respects_aggregate c1 c2 c3 c4 c5 first others job_reports :
  respects R normal_only (aggregate_of c1 c2 c3 c4 c5 first others job_reports).
Proof. unfold aggregate. respects_steps R_entry. Qed.

Section Job.
Variable db_job : Job.
Hypothesis R_save : ∀ stats, respects R normal_only (save tick (ObjJob db_job) stats).

Lemma respects_compute_job : respects R normal_only (compute_job db_job).
Proof.
  unfold _compute_report_for_job, get_or_create, objects_create.
  respects_steps R_save.
Qed.
End Job.

Section Task.
Variable db_task : Task.
Hypothesis R_save_job : ∀ db_job stats, respects R normal_only (save tick (ObjJob db_job) stats).
Hypothesis R_save : ∀ stats, respects R normal_only (save tick (ObjTask db_task) stats).

Lemma respects_compute_task : respects R normal_only (compute_task db_task).
Proof.
  unfold _compute_report_for_task, get_or_create, objects_create.
  respects_steps R_save.
  - apply respects_compute_job, R_save_job.
  - apply respects_aggregate.
Qed.
End Task.

Section Project.
Variable db_project : Project.
Hypothesis R_save_job : ∀ db_job stats, respects R normal_only (save tick (ObjJob db_job) stats).
Hypothesis R_save_task : ∀ db_task stats, respects R normal_only (save tick (ObjTask db_task) stats).
Hypothesis R_save : ∀ stats, respects R normal_only (save tick (ObjProject db_project) stats).

Lemma respects_project_loop l :
  respects R normal_only
    (for_each
       (λ db_task,
          _ ← compute_task db_task;
          for_each
            (λ db_job, _ ← refresh_from_db (ObjJob db_job); compute_job db_job)
            (jobs_of segment_set job_set db_task))
       l).
Proof.
  respects_steps R_save.
  - apply respects_compute_task; [apply R_save_job|apply R_save_task].
  - apply respects_compute_job, R_save_job.
Qed.

Lemma respects_compute_project : respects R normal_only (compute_project db_project).
Proof.
  unfold _compute_report_for_project, get_or_create, objects_create.
  respects_steps R_save.
  - apply respects_compute_task; [apply R_save_job|apply R_save_task].
  - apply respects_compute_job, R_save_job.
  - apply respects_aggregate.
Qed.
End Project.
End Respects.

(** *** Where a computation that raises leaves the reports *)

Section Raise.
Variable R : EngineState → EngineState → Prop.
Hypothesis R_refl : ∀ s, R s s.
Hypothesis R_trans : ∀ s1 s2 s3, R s1 s2 → R s2 s3 → R s1 s3.
Hypothesis R_entry : ∀ m, respects R false (statistics_entry m).

Lemma respects_raise_ret {A} (a : A) : respects_raise R (mret a).
Proof. by intros s s' e [=]. Qed.

Lemma respects_raise_save obj stats : respects_raise R (save tick obj stats).
Proof. by intros s s' e [=]. Qed.

Lemma respects_raise_bind {A B} (m : M A) (k : A → M B) :
  respects R false m → (∀ a, respects_raise R (k a)) → respects_raise R (m ≫= k).
Proof.
  intros Hm Hk s s' e. rewrite bind_M_eq. specialize (Hm s).
  destruct (m s) as [s1 [a|e1]].
  - intros H. eapply R_trans; [done|]. by eapply Hk.
  - by intros [= <- <-].
Qed.

Ltac raise_steps :=
  repeat
    (cbv zeta;
     match goal with
     | |- respects_raise _ (mret _) => apply respects_raise_ret
     | |- respects_raise _ (save _ _ _) => apply respects_raise_save
     | |- respects_raise _ (_ ≫= _) => apply respects_raise_bind; [|intros ?]
     | |- respects_raise _ (let '(_, _) := ?x in _) => destruct x
     | |- respects_raise _ (if ?c then _ else _) => destruct c
     | |- respects _ _ (_get_statistics_entry _ _ _ _ _ _ _) => apply R_entry
     | |- respects _ _ (lift _) => apply respects_lift; assumption
     end).

Lemma get_or_create_returns obj s :
  ∃ s1 x, get_or_create tick obj s = (s1, Ok x)
          ∧ match analytics_report (reports s) obj with
            | Some r => s1 = s
            | None =>
                analytics_report (reports s1) obj
                = Some {| created_date := tick (clock s); statistics := ∅ |}
            end.
Proof.
  destruct (analytics_report (reports s) obj) as [r|] eqn:E.
  - eexists _, _. split; [by apply get_or_create_Some|done].
  - eexists _, _. split; [by apply get_or_create_None|].
    simpl. apply analytics_report_set_report.
Qed.

(** After [get_or_create], a computation that raises leaves a state
    related by [R] to the one [get_or_create] left. *)
Lemma compute_job_raise db_job s s' e :
  compute_job db_job s = (s', Raise e) →
  ∃ s1 x, get_or_create tick (ObjJob db_job) s = (s1, Ok x) ∧ R s1 s'.
Proof.
  destruct (get_or_create_returns (ObjJob db_job) s) as (s1 & x & Hg & _).
  unfold _compute_report_for_job. rewrite bind_M_eq, Hg.
  intros H. exists s1, x. split; [done|]. revert H.
  match goal with
  | |- ?m s1 = _ → _ => assert (respects_raise R m) as Hm; [|exact (Hm s1 s' e)]
  end.
  raise_steps.
Qed.

Lemma compute_task_raise db_task s s' e :
  (∀ db_job stats, respects R false (save tick (ObjJob db_job) stats)) →
  compute_task db_task s = (s', Raise e) →
  ∃ s1 x, get_or_create tick (ObjTask db_task) s = (s1, Ok x) ∧ R s1 s'.
Proof.
  intros R_save_job.
  destruct (get_or_create_returns (ObjTask db_task) s) as (s1 & x & Hg & _).
  unfold _compute_report_for_task. rewrite bind_M_eq, Hg.
  intros H. exists s1, x. split; [done|]. revert H.
  match goal with
  | |- ?m s1 = _ → _ => assert (respects_raise R m) as Hm; [|exact (Hm s1 s' e)]
  end.
  raise_steps.
  - apply respects_for_each; [done..|]. intros db_job.
    by apply respects_compute_job.
  - by apply respects_aggregate.
Qed.

Lemma compute_project_raise db_project s s' e :
  (∀ db_job stats, respects R false (save tick (ObjJob db_job) stats)) →
  (∀ db_task stats, respects R false (save tick (ObjTask db_task) stats)) →
  compute_project db_project s = (s', Raise e) →
  ∃ s1 x, get_or_create tick (ObjProject db_project) s = (s1, Ok x) ∧ R s1 s'.
Proof.
  intros R_save_job R_save_task.
  destruct (get_or_create_returns (ObjProject db_project) s) as (s1 & x & Hg & _).
  unfold _compute_report_for_project. rewrite bind_M_eq, Hg.
  intros H. exists s1, x. split; [done|]. revert H.
  match goal with
  | |- ?m s1 = _ → _ => assert (respects_raise R m) as Hm; [|exact (Hm s1 s' e)]
  end.
  raise_steps.
  - by apply respects_project_loop.
  - by apply respects_aggregate.
Qed.
End Raise.

(** *** The relations at hand *)

Lemma same_reports_entry m : respects same_reports false (statistics_entry m).
Proof. intros s. unfold _get_statistics_entry. by destruct (calculate m). Qed.

Lemma same_above_jobs_trans s1 s2 s3 :
  same_above_jobs s1 s2 → same_above_jobs s2 s3 → same_above_jobs s1 s3.
Proof. intros [? ?] [? ?]. split; congruence. Qed.

Lemma same_above_jobs_entry m : respects same_above_jobs false (statistics_entry m).
Proof. intros s. unfold _get_statistics_entry. by destruct (calculate m). Qed.

Lemma same_above_jobs_save db_job stats :
  respects same_above_jobs false (save tick (ObjJob db_job) stats).
Proof. by intros s. Qed.

Lemma same_above_tasks_entry m : respects same_above_tasks false (statistics_entry m).
Proof. intros s. unfold _get_statistics_entry. by destruct (calculate m). Qed.

Lemma same_above_tasks_save_job db_job stats :
  respects same_above_tasks false (save tick (ObjJob db_job) stats).
Proof. by intros s. Qed.

Lemma same_above_tasks_save_task db_task stats :
  respects same_above_tasks false (save tick (ObjTask db_task) stats).
Proof. by intros s. Qed.

Lemma calculated_all_refl s : calculated_all calculate s s.
Proof. exists []. by rewrite app_nil_r. Qed.

Lemma calculated_all_trans s1 s2 s3 :
  calculated_all calculate s1 s2 → calculated_all calculate s2 s3 →
  calculated_all calculate s1 s3.
Proof.
  intros (l1 & E1 & F1) (l2 & E2 & F2). exists (l1 ++ l2).
  split; [by rewrite E2, E1, app_assoc|]. by apply Forall_app.
Qed.

Lemma calculated_all_entry m : respects (calculated_all calculate) true (statistics_entry m).
Proof.
  intros s. unfold _get_statistics_entry. destruct (calculate m) as [d|e] eqn:E; simpl; [|done].
  exists [m]. split; [done|]. constructor; eauto.
Qed.

Lemma calculated_all_save obj stats :
  respects (calculated_all calculate) true (save tick obj stats).
Proof. intros s. simpl. exists []. by rewrite app_nil_r. Qed.

(** C7, as amended.  When the computation of a report raises, the entity's
    report is what it was before the call if it existed, with its statistics
    and its date (for a job, no report at all is written); if the entity had
    no report, it is left with the empty report that the call created at its
    start.  The same holds for the task and for the project whose
    computation raises with it.  And a computation returns normally only if
    every [calculate()] it invoked returned. *)
Theorem failed_computation_keeps_report s s' e :
  (∀ db_job,
     compute_job db_job s = (s', Raise e) →
     match analytics_report (reports s) (ObjJob db_job) with
     | Some r => reports s' = reports s
     | None =>
         analytics_report (reports s') (ObjJob db_job)
         = Some {| created_date := tick (clock s); statistics := ∅ |}
     end)
  ∧ (∀ db_task,
       compute_task db_task s = (s', Raise e) →
       analytics_report (reports s') (ObjTask db_task)
       = match analytics_report (reports s) (ObjTask db_task) with
         | Some r => Some r
         | None => Some {| created_date := tick (clock s); statistics := ∅ |}
         end)
  ∧ (∀ db_project,
       compute_project db_project s = (s', Raise e) →
       analytics_report (reports s') (ObjProject db_project)
       = match analytics_report (reports s) (ObjProject db_project) with
         | Some r => Some r
         | None => Some {| created_date := tick (clock s); statistics := ∅ |}
         end)
  ∧ (∀ s1 s2 r,
       (∃ db_job, compute_job db_job s1 = (s2, Ok r))
       ∨ (∃ db_task, compute_task db_task s1 = (s2, Ok r))
       ∨ (∃ db_project, compute_project db_project s1 = (s2, Ok r)) →
       calculated_all calculate s1 s2).
Proof.
  split_and!.
  - intros db_job H.
    destruct (compute_job_raise same_reports (λ _, eq_refl)
                (λ s1 s2 s3 H1 H2, eq_trans H2 H1) same_reports_entry _ _ _ _ H)
      as (s1 & x & Hg & HR).
    destruct (get_or_create_returns (ObjJob db_job) s) as (s1' & x' & Hg' & Hs1).
    rewrite Hg in Hg'. injection Hg' as <- <-. unfold same_reports in HR.
    revert Hs1. destruct (analytics_report (reports s) (ObjJob db_job)); intros Hs1;
      [subst s1; exact HR|rewrite HR; exact Hs1].
  - intros db_task H.
    destruct (compute_task_raise same_above_jobs (λ _, conj eq_refl eq_refl)
                same_above_jobs_trans same_above_jobs_entry _ _ _ _
                same_above_jobs_save H)
      as (s1 & x & Hg & [HR _]).
    destruct (get_or_create_returns (ObjTask db_task) s) as (s1' & x' & Hg' & Hs1).
    rewrite Hg in Hg'. injection Hg' as <- <-. simpl in *. rewrite HR.
    revert Hs1. destruct (task_reports (reports s) !! task_id db_task) eqn:E; intros Hs1;
      [subst s1; exact E|exact Hs1].
  - intros db_project H.
    destruct (compute_project_raise same_above_tasks (λ _, eq_refl)
                (λ s1 s2 s3 H1 H2, eq_trans H2 H1) same_above_tasks_entry _ _ _ _
                same_above_tasks_save_job same_above_tasks_save_task H)
      as (s1 & x & Hg & HR).
    destruct (get_or_create_returns (ObjProject db_project) s) as (s1' & x' & Hg' & Hs1).
    rewrite Hg in Hg'. injection Hg' as <- <-. unfold same_above_tasks in HR.
    simpl in *. rewrite HR.
    revert Hs1. destruct (project_reports (reports s) !! project_id db_project) eqn:E;
      intros Hs1; [subst s1; exact E|exact Hs1].
  - intros s1 s2 r [[x H]|[[x H]|[x H]]].
    + pose proof (respects_compute_job _ true calculated_all_refl calculated_all_trans
                    calculated_all_entry x (calculated_all_save _) s1) as HR.
      by rewrite H in HR.
    + pose proof (respects_compute_task _ true calculated_all_refl calculated_all_trans
                    calculated_all_entry x (λ j, calculated_all_save _)
                    (calculated_all_save _) s1) as HR.
      by rewrite H in HR.
    + pose proof (respects_compute_project _ true calculated_all_refl calculated_all_trans
                    calculated_all_entry x (λ j, calculated_all_save _)
                    (λ t, calculated_all_save _) (calculated_all_save _) s1) as HR.
      by rewrite H in HR.
Qed.
End EngineProperties.

(** ** The computation on the sample data *)

Lemma fresh_report_is_returned_unchanged_witness :
  _compute_report_for_job sample_calculate sample_attribute sample_attribute
    sample_attribute sample_attribute sample_attribute Z.succ sample_job
    (job_report_state 60000000)
  = (job_report_state 60000000, Ok {| created_date := 60000000; statistics := ∅ |}).
Proof.
  apply (proj1 (fresh_report_is_returned_unchanged sample_tasks sample_segment_set
                  sample_job_set sample_calculate sample_attribute sample_attribute
                  sample_attribute sample_attribute sample_attribute Z.succ
                  (job_report_state 60000000)
                  {| created_date := 60000000; statistics := ∅ |})).
  - reflexivity.
  - simpl. lia.
Defined.

Lemma job_report_is_created_witness :
  ∃ s',
    _compute_report_for_job sample_calculate sample_attribute sample_attribute
      sample_attribute sample_attribute sample_attribute Z.succ sample_job sample_state
    = (s',
       Ok {| created_date := 200000002;
             statistics :=
               {[ "objects" := sample_entry; "annotation_speed" := sample_entry;
                  "annotation_time" := sample_entry;
                  "total_annotation_speed" := sample_entry;
                  "total_object_count" := sample_entry ]} |}).
Proof.
  destruct (job_report_is_created sample_calculate sample_attribute sample_attribute
              sample_attribute sample_attribute sample_attribute Z.succ sample_state
              sample_job (JList [JNum 1]) (JList [JNum 1]) (JList [JNum 1])
              (JList [JNum 1]) (JList [JNum 1])
              eq_refl eq_refl eq_refl eq_refl eq_refl eq_refl)
    as (s' & Hrun & _).
  exists s'. etrans; [exact Hrun|]. vm_compute. reflexivity.
Defined.

Lemma failed_computation_keeps_report_witness :
  reports
    {| reports := reports (job_report_state 10000000); clock := 200000000;
       calculated :=
         [{| metric_class := JobObjects; metric_obj := ObjJob sample_job;
             metric_input := NoStatistics |}] |}
  = reports (job_report_state 10000000).
Proof.
  apply (proj1 (failed_computation_keeps_report sample_tasks sample_segment_set
                  sample_job_set failing_calculate sample_attribute sample_attribute
                  sample_attribute sample_attribute sample_attribute Z.succ
                  (job_report_state 10000000) _ (CalculateError "calculate"))
           sample_job).
  vm_compute. reflexivity.
Defined.

(** C7, the claim as stated fails for an entity without a report: when the
    first metric of [sample_job] raises, the call raises and the job is left
    with a report, the empty one that the call created at its start. *)
Lemma failed_first_computation_leaves_empty_report :
  analytics_report (reports sample_state) (ObjJob sample_job) = None
  ∧ _compute_report_for_job failing_calculate sample_attribute sample_attribute
      sample_attribute sample_attribute sample_attribute Z.succ sample_job sample_state
    = ({| reports :=
            {| job_reports := {[ 11 := {| created_date := 200000001; statistics := ∅ |} ]};
               task_reports := ∅; project_reports := ∅ |};
          clock := 200000002;
          calculated :=
            [{| metric_class := JobObjects; metric_obj := ObjJob sample_job;
                metric_input := NoStatistics |}] |},
       Raise (CalculateError "calculate"))
  ∧ analytics_report
      {| job_reports := {[ 11 := {| created_date := 200000001; statistics := ∅ |} ]};
         task_reports := ∅; project_reports := ∅ |} (ObjJob sample_job)
    = Some {| created_date := 200000001; statistics := ∅ |}.
Proof. split_and!; vm_compute; reflexivity. Qed.

(** C8, the code at a project with one task and at a project without
    tasks.  The metrics calculated for [sample_project] are, after those of
    its job and of its task, [ProjectObjects] on the project and the other
    four project metrics on the task, the value of [db_task] after the loop;
    for a project without tasks [db_task] is unbound, the computation raises
    before any metric is calculated. *)
Theorem project_metrics_are_given_the_task :
  map (λ m, (metric_class m, metric_obj m))
    (calculated
       (_compute_report_for_project sample_tasks sample_segment_set sample_job_set
          sample_calculate sample_attribute sample_attribute sample_attribute
          sample_attribute sample_attribute Z.succ sample_project sample_state).1)
  = [(JobObjects, ObjJob sample_project_job);
     (JobAnnotationSpeed, ObjJob sample_project_job);
     (JobAnnotationTime, ObjJob sample_project_job);
     (JobTotalAnnotationSpeed, ObjJob sample_project_job);
     (JobTotalObjectCount, ObjJob sample_project_job);
     (TaskObjects, ObjTask sample_project_task);
     (TaskAnnotationSpeed, ObjTask sample_project_task);
     (TaskAnnotationTime, ObjTask sample_project_task);
     (TaskTotalAnnotationSpeed, ObjTask sample_project_task);
     (TaskTotalObjectCount, ObjTask sample_project_task);
     (ProjectObjects, ObjProject sample_project);
     (ProjectAnnotationSpeed, ObjTask sample_project_task);
     (ProjectAnnotationTime, ObjTask sample_project_task);
     (ProjectTotalAnnotationSpeed, ObjTask sample_project_task);
     (ProjectTotalObjectCount, ObjTask sample_project_task)]
  ∧ (_compute_report_for_project sample_tasks sample_segment_set sample_job_set
       sample_calculate sample_attribute sample_attribute sample_attribute
       sample_attribute sample_attribute Z.succ empty_project sample_state).2
    = Raise (UnboundLocalError "db_task")
  ∧ calculated
      (_compute_report_for_project sample_tasks sample_segment_set sample_job_set
         sample_calculate sample_attribute sample_attribute sample_attribute
         sample_attribute sample_attribute Z.succ empty_project sample_state).1
    = [].
Proof. split_and!; vm_compute; reflexivity. Qed.

(** * Further properties of the scheduler *)

Lemma max_from_raises (key : string → result Z) l best best_key :
  (∀ j e, key j = Raise e → e = ValueError) →
  (∃ j, j ∈ l ∧ key j = Raise ValueError) →
  max_from key best best_key l = Raise ValueError.
Proof.
  intros Hval. revert best best_key. induction l as [|a l IH]; intros best best_key [j [Hin Hj]].
  - inversion Hin.
  - simpl. destruct (key a) as [k|e] eqn:Ha; simpl.
    + assert (∃ j, j ∈ l ∧ key j = Raise ValueError) as Hl.
      { apply elem_of_cons in Hin as [->|Hin]; [congruence|eauto]. }
      case_bool_decide; by apply IH.
    + pose proof (Hval a e Ha) as ->. done.
Qed.

Lemma py_max_raises (key : string → result Z) l :
  (∀ j e, key j = Raise e → e = ValueError) →
  (∃ j, j ∈ l ∧ key j = Raise ValueError) →
  py_max key l = Raise ValueError.
Proof.
  intros Hval [j [Hin Hj]]. destruct l as [|a l]; [inversion Hin|].
  simpl. destruct (key a) as [k|e] eqn:Ha; simpl.
  - rewrite (max_from_raises key l a k Hval); [done|].
    apply elem_of_cons in Hin as [->|Hin]; [congruence|eauto].
  - pose proof (Hval a e Ha) as ->. done.
Qed.

Lemma append_inv_head (p s1 s2 : string) : p +:+ s1 = p +:+ s2 → s1 = s2.
Proof. induction p as [|c p IH]; simpl; [done|]. intros [= H]. by apply IH. Qed.

Section SchedulerFurther.
Variable ANALYTICS_CHECK_JOB_DELAY : Z.
Variable timestamp_str : Z → string.
Variable fromtimestamp_float : string → option Z.

Local Abbreviation delay := (_get_analytics_check_job_delay ANALYTICS_CHECK_JOB_DELAY).
Local Abbreviation get_timestamp := (_get_timestamp fromtimestamp_float).
Local Abbreviation regular_id := (_make_regular_queue_job_id timestamp_str).
Local Abbreviation find_next_job_id :=
  (_find_next_job_id ANALYTICS_CHECK_JOB_DELAY timestamp_str fromtimestamp_float).
Local Abbreviation well_formed := (well_formed_ids fromtimestamp_float).
Local Abbreviation schedule_autoupdate :=
  (schedule_analytics_report_autoupdate_job ANALYTICS_CHECK_JOB_DELAY timestamp_str
     fromtimestamp_float).
Local Abbreviation job_id_of_call :=
  (autoupdate_job_id ANALYTICS_CHECK_JOB_DELAY timestamp_str fromtimestamp_float).
Local Abbreviation listing := (list_pending ANALYTICS_CHECK_JOB_DELAY).

(** X1.  The id made for an instant is read back as that instant when the
    text of the timestamp is read back as it, the initial id is read back as
    the least instant, both are under the prefix of the entity, and they
    differ. *)
Theorem job_id_timestamp_round_trip obj t :
  timestamp_str t ≠ "initial" →
  fromtimestamp_float (timestamp_str t) = Some t →
  get_timestamp (_make_queue_job_prefix obj) (regular_id obj t) = Ok t
  ∧ get_timestamp (_make_queue_job_prefix obj) (_make_initial_queue_job_id obj)
    = Ok datetime_min
  ∧ startswith (regular_id obj t) (_make_queue_job_prefix obj) = true
  ∧ startswith (_make_initial_queue_job_id obj) (_make_queue_job_prefix obj) = true
  ∧ regular_id obj t ≠ _make_initial_queue_job_id obj.
Proof.
  intros Hne Hrt. split_and!.
  - by apply get_timestamp_regular.
  - apply get_timestamp_initial.
  - apply startswith_app.
  - apply startswith_app.
  - unfold _make_regular_queue_job_id, _make_initial_queue_job_id.
    intros H%append_inv_head. done.
Qed.

(** X2.  A listed id under the prefix of the entity whose timestamp part is
    neither [initial] nor a text that [float] and [fromtimestamp] accept makes
    [_find_next_job_id] raise, with or without a report, and the call of the
    scheduler that listed it raises the same exception. *)
Theorem malformed_job_id_raises db ids obj now j :
  j ∈ ids →
  startswith j (_make_queue_job_prefix obj) = true →
  split_last (_make_queue_job_prefix obj) j ≠ "initial" →
  fromtimestamp_float (split_last (_make_queue_job_prefix obj) j) = None →
  ∃ e,
    find_next_job_id db ids obj now = Raise e
    ∧ (∀ q job task project utcnow,
         (autoupdate_target job task project).1 = Some obj →
         get_jobs q (utcnow + delay) = ids →
         schedule_autoupdate db q job task project now utcnow = Raise e).
Proof.
  intros Hin Hp Hne Hbad. exists ValueError.
  assert (find_next_job_id db ids obj now = Raise ValueError) as Hfind.
  { unfold _find_next_job_id. rewrite py_max_raises; [done| |].
    - intros j' e. unfold _get_timestamp. case_bool_decide; [done|].
      destruct (fromtimestamp_float (split_last _ j')); [done|]. intros [= Heq]. by symmetry.
    - exists j. split.
      + apply list_elem_of_filter. split; [done|]. by apply elem_of_elements.
      + unfold _get_timestamp. rewrite bool_decide_eq_false_2 by done. by rewrite Hbad. }
  split; [done|].
  intros q job task project utcnow Htarget Hids.
  unfold schedule_analytics_report_autoupdate_job, enqueue_target, autoupdate_job_id.
  rewrite Htarget. simpl. rewrite Hids, Hfind. done.
Qed.

(** X3.  When a listed job of the entity is dated after [now] and the listed
    ids are well formed, the call settles on a listed id of the entity with
    the greatest timestamp and leaves the queue as it is. *)
Theorem pending_future_job_is_reused db q job task project obj now utcnow last j t :
  (autoupdate_target job task project).1 = Some obj →
  _get_last_report_time db obj = Ok (Some last) →
  well_formed (_make_queue_job_prefix obj) (get_jobs q (utcnow + delay)) →
  j ∈ get_jobs q (utcnow + delay) →
  startswith j (_make_queue_job_prefix obj) = true →
  get_timestamp (_make_queue_job_prefix obj) j = Ok t →
  now < t →
  ∃ j' t',
    job_id_of_call db job task project (listing q now utcnow) = Ok j'
    ∧ j' ∈ get_jobs q (utcnow + delay)
    ∧ startswith j' (_make_queue_job_prefix obj) = true
    ∧ get_timestamp (_make_queue_job_prefix obj) j' = Ok t'
    ∧ t ≤ t'
    ∧ schedule_autoupdate db q job task project now utcnow = Ok q.
Proof.
  intros Htarget Hlast Hwf Hin Hp Ht Hlt.
  pose proof (find_next_job_id_cases ANALYTICS_CHECK_JOB_DELAY timestamp_str
                fromtimestamp_float db (get_jobs q (utcnow + delay)) obj now Hwf) as Hcases.
  rewrite Hlast in Hcases.
  destruct Hcases as [(j' & t' & Hin' & Hp' & Ht' & Hlt' & Hmax & Hfind)|[Hstale _]].
  - exists j', t'.
    assert (job_id_of_call db job task project (listing q now utcnow) = Ok j') as Hkey.
    { unfold autoupdate_job_id. rewrite Htarget. exact Hfind. }
    split_and!; try done.
    + exact (Hmax j t Hin Hp Ht).
    + unfold schedule_analytics_report_autoupdate_job, enqueue_target.
      rewrite Hkey. simpl. by rewrite bool_decide_eq_true_2.
  - specialize (Hstale j t Hin Hp Ht). lia.
Qed.

(** X4.  With a delay of zero, a call for an entity that has a report and no
    listed job dated after [now] raises [ZeroDivisionError]. *)
Theorem zero_delay_raises db ids obj now last :
  ANALYTICS_CHECK_JOB_DELAY = 0 →
  _get_last_report_time db obj = Ok (Some last) →
  (∀ j, j ∈ ids → startswith j (_make_queue_job_prefix obj) = true →
        ∃ t, get_timestamp (_make_queue_job_prefix obj) j = Ok t ∧ t ≤ now) →
  find_next_job_id db ids obj now = Raise ZeroDivisionError.
Proof.
  intros Hzero Hlast Hstale.
  pose proof (find_next_job_id_cases ANALYTICS_CHECK_JOB_DELAY timestamp_str
                fromtimestamp_float db ids obj now) as Hcases.
  rewrite Hlast in Hcases.
  destruct Hcases as [(j & t & Hin & Hp & Ht & Hnow & _)|[_ ->]].
  - intros j Hin Hp. destruct (Hstale j Hin Hp) as (t & ? & _). eauto.
  - destruct (Hstale j Hin Hp) as (t' & Ht' & Hle).
    rewrite Ht in Ht'. injection Ht' as Ht'. lia.
  - unfold next_update_time, _get_analytics_check_job_delay. rewrite Hzero. done.
Qed.

(** X5.  A call of the scheduler that returns never removes or alters a job
    of the queue, and adds at most one job: a job due at [utcnow + delay],
    without meta and without retention times. *)
Theorem autoupdate_only_adds_one_job db (q : gmap string RqJob) job task project now utcnow q' :
  schedule_autoupdate db q job task project now utcnow = Ok q' →
  (∀ k rq_job, q !! k = Some rq_job → q' !! k = Some rq_job)
  ∧ (size q' ≤ S (size q))%nat
  ∧ (q' = q
     ∨ ∃ key,
         job_id_of_call db job task project (listing q now utcnow) = Ok key
         ∧ q !! key = None
         ∧ q' = <[key :=
                    {| func_kwargs := (autoupdate_target job task project).2;
                       meta := ∅; scheduled_time := Some (utcnow + delay);
                       result_ttl := None; failure_ttl := None |}]> q).
Proof.
  unfold schedule_analytics_report_autoupdate_job, enqueue_target.
  destruct (job_id_of_call db job task project (listing q now utcnow)) as [key|e]; simpl;
    [|done].
  case_bool_decide as Hin; intros [= <-].
  { split_and!; [done|lia|by left]. }
  unfold enqueue_at, insert_job. destruct (q !! key) as [x|] eqn:Hkey.
  { split_and!; [done|lia|by left]. }
  split_and!.
  - intros k rq_job Hk. rewrite lookup_insert_ne; [done|]. by intros <-; congruence.
  - by rewrite map_size_insert_None.
  - right. exists key. done.
Qed.

(** X6.  The job that a call enqueues under the id of a time frame is due
    within that frame, now past the report and the second reading of the
    clock still before the frame: between the instant of the id and one
    delay after it. *)
Theorem new_job_is_due_within_its_time_frame db (q : gmap string RqJob) job task project obj
    now utcnow last target :
  0 < ANALYTICS_CHECK_JOB_DELAY →
  (autoupdate_target job task project).1 = Some obj →
  _get_last_report_time db obj = Ok (Some last) →
  (∀ j, j ∈ get_jobs q (utcnow + delay) →
        startswith j (_make_queue_job_prefix obj) = true →
        ∃ t, get_timestamp (_make_queue_job_prefix obj) j = Ok t ∧ t ≤ now) →
  next_update_time last delay now = Ok target →
  last ≤ now → now ≤ utcnow → utcnow < target →
  q !! regular_id obj target = None →
  ∃ q' rq_job,
    schedule_autoupdate db q job task project now utcnow = Ok q'
    ∧ q' !! regular_id obj target = Some rq_job
    ∧ scheduled_time rq_job = Some (utcnow + delay)
    ∧ target ≤ utcnow + delay < target + delay.
Proof.
  intros Hpos Htarget Hlast Hstale Hnext Hle Hclock Hbefore Hfree.
  assert (0 < delay) as Hd by (unfold _get_analytics_check_job_delay; lia).
  pose proof (find_next_job_id_cases ANALYTICS_CHECK_JOB_DELAY timestamp_str
                fromtimestamp_float db (get_jobs q (utcnow + delay)) obj now) as Hcases.
  rewrite Hlast in Hcases.
  assert (find_next_job_id db (get_jobs q (utcnow + delay)) obj now
          = Ok (regular_id obj target)) as Hfind.
  { destruct Hcases as [(j & t & Hin & Hp & Ht & Hnow & _)|[_ ->]].
    - intros j Hin Hp. destruct (Hstale j Hin Hp) as (t & ? & _). eauto.
    - destruct (Hstale j Hin Hp) as (t' & Ht' & Hle').
      rewrite Ht in Ht'. injection Ht' as Ht'. lia.
    - by rewrite Hnext. }
  assert (regular_id obj target ∉ get_jobs q (utcnow + delay)) as Hnotin.
  { intros Hin%get_jobs_subseteq. apply elem_of_dom in Hin as [x Hx]. congruence. }
  eexists _, _. split_and!.
  - unfold schedule_analytics_report_autoupdate_job, enqueue_target, autoupdate_job_id.
    rewrite Htarget. simpl. rewrite Hfind. simpl.
    rewrite bool_decide_eq_false_2 by done. reflexivity.
  - unfold enqueue_at, insert_job. rewrite Hfree. apply lookup_insert_eq.
  - reflexivity.
  - unfold next_update_time in Hnext. rewrite bool_decide_eq_false_2 in Hnext by lia.
    injection Hnext as <-.
    pose proof (Z.div_mod (now - last) delay ltac:(lia)) as Hdm.
    pose proof (Z.mod_pos_bound (now - last) delay Hd) as Hr.
    assert (0 ≤ (now - last) `div` delay) by (apply Z.div_pos; lia).
    rewrite Z.max_r in * by lia. nia.
  - unfold next_update_time in Hnext. rewrite bool_decide_eq_false_2 in Hnext by lia.
    injection Hnext as <-. lia.
Qed.
End SchedulerFurther.

(** X7.  Enqueueing an on-demand check changes nothing of what the
    scheduler lists, whatever the id: the job is not a scheduled one. *)
Theorem check_job_is_never_listed (q : gmap string RqJob) rq_id job task project user_id until :
  get_jobs (schedule_analytics_check_job q rq_id job task project user_id).2 until
  = get_jobs q until.
Proof.
  unfold schedule_analytics_check_job, enqueue, insert_job, get_jobs. simpl.
  destruct (q !! rq_id) as [x|] eqn:Hq; [done|].
  rewrite map_filter_insert_not'; [done|by intros [=]|].
  intros y Hy. congruence.
Qed.

(** ** The prefixes of different entities *)

Lemma pretty_N_char_no_dash x : pretty_N_char x ≠ "-"%char.
Proof. unfold pretty_N_char. by repeat case_match. Qed.

Lemma pretty_N_go_no_dash x s : no_dash s → no_dash (pretty_N_go x s).
Proof.
  revert s. induction (N.lt_wf_0 x) as [x _ IH]; intros s Hs.
  assert (x = 0 ∨ 0 < x)%N as [->|?] by lia.
  - by rewrite pretty_N_go_0.
  - rewrite pretty_N_go_step by done. apply IH.
    + by apply N.div_lt.
    + split; [apply pretty_N_char_no_dash|done].
Qed.

Lemma pretty_N_go_not_empty x c s : pretty_N_go x (String c s) ≠ "".
Proof.
  revert c s. induction (N.lt_wf_0 x) as [x _ IH]; intros c s.
  assert (x = 0 ∨ 0 < x)%N as [->|?] by lia.
  - by rewrite pretty_N_go_0.
  - rewrite pretty_N_go_step by done. apply IH. by apply N.div_lt.
Qed.

Lemma pretty_N_digits (n : N) : no_dash (pretty n) ∧ pretty n ≠ "".
Proof.
  unfold pretty, pretty_N. case_decide as Hn; [by split|].
  split; [by apply pretty_N_go_no_dash|].
  rewrite pretty_N_go_step by lia. apply pretty_N_go_not_empty.
Qed.

Lemma no_dash_before_dash a b r1 r2 :
  no_dash a → no_dash b → a +:+ "-" +:+ r1 = b +:+ "-" +:+ r2 → a = b.
Proof.
  revert b. induction a as [|c a IH]; intros [|d b]; simpl.
  - done.
  - intros _ [Hd _] [= <- _]. done.
  - intros [Hc _] _ [= -> _]. done.
  - intros [_ Ha] [_ Hb] [= -> H]. f_equal. by apply IH.
Qed.

Lemma pretty_Z_before_dash (z1 z2 : Z) r1 r2 :
  pretty z1 +:+ "-" +:+ r1 = pretty z2 +:+ "-" +:+ r2 → z1 = z2.
Proof.
  intros H. apply (inj pretty). revert H.
  assert (∀ z : Z, 0 ≤ z → no_dash (pretty z) ∧ pretty z ≠ "") as Hpos.
  { intros [|p|p] Hz; [by split|apply (pretty_N_digits (N.pos p))|lia]. }
  assert (∀ p : positive, pretty (Z.neg p) = "-" +:+ pretty (N.pos p)) as Hneg by done.
  destruct (Z.le_gt_cases 0 z1) as [H1|H1], (Z.le_gt_cases 0 z2) as [H2|H2].
  - destruct (Hpos z1 H1), (Hpos z2 H2). by apply no_dash_before_dash.
  - destruct (Hpos z1 H1) as [Hd Hne]. destruct z2 as [|p|p]; try lia. rewrite Hneg.
    destruct (pretty z1) as [|c a]; [done|]. simpl. intros [= -> _]. by destruct Hd.
  - destruct (Hpos z2 H2) as [Hd Hne]. destruct z1 as [|p|p]; try lia. rewrite Hneg.
    destruct (pretty z2) as [|c a]; [done|]. simpl. intros [= <- _]. by destruct Hd.
  - destruct z1 as [|p1|p1], z2 as [|p2|p2]; try lia. rewrite !Hneg. simpl.
    intros [= H]. f_equal.
    destruct (pretty_N_digits (N.pos p1)), (pretty_N_digits (N.pos p2)).
    by eapply no_dash_before_dash.
Qed.

Lemma append_assoc3 (a b c : string) : (a +:+ b) +:+ c = a +:+ b +:+ c.
Proof.
  induction a as [|x a IH]; [done|].
  change (String x ((a +:+ b) +:+ c) = String x (a +:+ b +:+ c)). by f_equal.
Qed.

(** X8.  A string that is under the prefixes of two entities is under one
    prefix: the two are both tasks or both not, with the same id, and their
    prefixes are equal. *)
Theorem prefixes_of_entities_are_apart obj1 obj2 key :
  startswith key (_make_queue_job_prefix obj1) = true →
  startswith key (_make_queue_job_prefix obj2) = true →
  is_task obj1 = is_task obj2
  ∧ obj_id obj1 = obj_id obj2
  ∧ _make_queue_job_prefix obj1 = _make_queue_job_prefix obj2.
Proof.
  intros [r1 ->]%startswith_inv [r2 H]%startswith_inv.
  assert (∀ obj,
            _make_queue_job_prefix obj
            = (if is_task obj then _QUEUE_JOB_PREFIX_TASK else _QUEUE_JOB_PREFIX_PROJECT)
                +:+ pretty (obj_id obj) +:+ "-") as Hprefix by (by intros []).
  rewrite !Hprefix, !append_assoc3 in H. rewrite !Hprefix.
  destruct (is_task obj1), (is_task obj2); simpl in H; try by simplify_eq.
  - apply (append_inv_head _QUEUE_JOB_PREFIX_TASK) in H.
    apply pretty_Z_before_dash in H. by rewrite H.
  - apply (append_inv_head _QUEUE_JOB_PREFIX_PROJECT) in H.
    apply pretty_Z_before_dash in H. by rewrite H.
Qed.

(** * Further properties of the computation of reports *)

Section EngineFurther.
Variable tasks : Project → list Task.
Variable segment_set : Task → list Segment.
Variable job_set : Segment → list Job.
Variable calculate : Metric → result Json.
Variable metric_title metric_description metric_granularity
  metric_default_view metric_transformations : MetricClass → Json.
Variable tick : Z → Z.

Local Abbreviation compute_job :=
  (_compute_report_for_job calculate metric_title metric_description metric_granularity
     metric_default_view metric_transformations tick).
Local Abbreviation compute_task :=
  (_compute_report_for_task segment_set job_set calculate metric_title metric_description
     metric_granularity metric_default_view metric_transformations tick).
Local Abbreviation compute_project :=
  (_compute_report_for_project tasks segment_set job_set calculate metric_title
     metric_description metric_granularity metric_default_view metric_transformations tick).
Local Abbreviation statistics_entry :=
  (_get_statistics_entry calculate metric_title metric_description metric_granularity
     metric_default_view metric_transformations).
Local Abbreviation entry_of c d :=
  {| title := metric_title c; description := metric_description c;
     granularity := metric_granularity c; default_view := metric_default_view c;
     transformations := metric_transformations c; dataseries := d |}.
Local Abbreviation aggregate_of :=
  (aggregate calculate metric_title metric_description metric_granularity
     metric_default_view metric_transformations).

(** *** What a computation never writes *)

Lemma rows_same_except_trans id (m1 m2 m3 : gmap Z AnalyticsReport) :
  rows_same_except id m1 m2 → rows_same_except id m2 m3 → rows_same_except id m1 m3.
Proof. intros H1 H2 k Hk. by rewrite H2, H1. Qed.

Lemma rows_same_except_insert id r (m : gmap Z AnalyticsReport) :
  rows_same_except id m (<[id := r]> m).
Proof. intros k Hk. by apply lookup_insert_ne. Qed.

Lemma job_frame_trans id s1 s2 s3 : job_frame id s1 s2 → job_frame id s2 s3 → job_frame id s1 s3.
Proof.
  intros (H1 & T1 & P1) (H2 & T2 & P2).
  split_and!; [by eapply rows_same_except_trans|congruence..].
Qed.

Lemma task_frame_trans id s1 s2 s3 :
  task_frame id s1 s2 → task_frame id s2 s3 → task_frame id s1 s3.
Proof.
  intros (H1 & P1) (H2 & P2). split; [by eapply rows_same_except_trans|congruence].
Qed.

Lemma frame_entry (R : EngineState → EngineState → Prop) normal_only m :
  (∀ s l, R s {| reports := reports s; clock := clock s; calculated := l |}) →
  respects R normal_only (statistics_entry m).
Proof.
  intros HR s. unfold _get_statistics_entry.
  destruct (calculate m); simpl; [|destruct normal_only]; auto.
Qed.

(** X9.  The computation of the report of a job, whatever its outcome,
    leaves the reports of the other jobs, of the tasks and of the projects as
    they were; that of a task leaves the reports of the other tasks and of
    the projects; that of a project leaves the reports of the other
    projects. *)
Theorem computation_writes_no_other_report s :
  (∀ db_job, job_frame (job_id db_job) s (compute_job db_job s).1)
  ∧ (∀ db_task, task_frame (task_id db_task) s (compute_task db_task s).1)
  ∧ (∀ db_project, project_frame (project_id db_project) s (compute_project db_project s).1).
Proof.
  assert (∀ {A} (R : EngineState → EngineState → Prop) (m : M A),
            respects R false m → R s (m s).1) as Hrun.
  { intros A R m Hm. specialize (Hm s). by destruct (m s) as [s' [a|e]]. }
  split_and!.
  - intros db_job. apply Hrun.
    apply respects_compute_job.
    + intros s0. by split_and!.
    + apply job_frame_trans.
    + intros m. apply frame_entry. intros s0 l. by split_and!.
    + intros stats s0. simpl. split_and!; [apply rows_same_except_insert|done..].
  - intros db_task. apply Hrun.
    apply respects_compute_task.
    + intros s0. by split.
    + apply task_frame_trans.
    + intros m. apply frame_entry. intros s0 l. by split.
    + intros db_job stats s0. simpl. by split.
    + intros stats s0. simpl. split; [apply rows_same_except_insert|done].
  - intros db_project. apply Hrun.
    apply respects_compute_project.
    + by intros s0 k Hk.
    + intros s1 s2 s3. apply rows_same_except_trans.
    + intros m. apply frame_entry. by intros s0 l k Hk.
    + by intros db_job stats s0 k Hk.
    + by intros db_task stats s0 k Hk.
    + intros stats s0. simpl. apply rows_same_except_insert.
Qed.

Lemma reports_kept_save obj stats normal_only :
  respects reports_kept normal_only (save tick obj stats).
Proof.
  intros s. simpl. intros obj' [r Hr].
  destruct obj as [j|t|p], obj' as [j'|t'|p']; simpl in *; eauto;
    rewrite lookup_insert; case_decide; eauto.
Qed.

(** X10.  No computation deletes a report: an entity that has a report
    before the computation of the report of a job, of a task or of a project
    has one after it, whatever the outcome. *)
Theorem computation_deletes_no_report s obj :
  is_Some (analytics_report (reports s) obj) →
  (∀ db_job, is_Some (analytics_report (reports (compute_job db_job s).1) obj))
  ∧ (∀ db_task, is_Some (analytics_report (reports (compute_task db_task s).1) obj))
  ∧ (∀ db_project,
       is_Some (analytics_report (reports (compute_project db_project s).1) obj)).
Proof.
  intros Hobj.
  assert (∀ {A} (m : M A), respects reports_kept false m →
            is_Some (analytics_report (reports (m s).1) obj)) as Hrun.
  { intros A m Hm. specialize (Hm s). destruct (m s) as [s' [a|e]]; by apply Hm. }
  assert (∀ s0, reports_kept s0 s0) as Hrefl by (by intros s0 o).
  assert (∀ s1 s2 s3, reports_kept s1 s2 → reports_kept s2 s3 → reports_kept s1 s3)
    as Htrans by (intros s1 s2 s3 H1 H2 o Ho; by apply H2, H1).
  assert (∀ m, respects reports_kept false (statistics_entry m)) as Hentry.
  { intros m. apply frame_entry. by intros s0 l o. }
  split_and!; intros x; apply Hrun.
  - apply respects_compute_job; try done. intros; apply reports_kept_save.
  - apply respects_compute_task; try done; intros; apply reports_kept_save.
  - apply respects_compute_project; try done; intros; apply reports_kept_save.
Qed.

(** *** What a computation returns *)

Lemma compute_job_fresh db_job r s :
  analytics_report (reports s) (ObjJob db_job) = Some r →
  job_updated_date db_job ≤ created_date r →
  compute_job db_job s = (s, Ok r).
Proof.
  intros Hr Hfresh. unfold _compute_report_for_job.
  rewrite bind_M_eq, (get_or_create_Some _ _ r) by done.
  by rewrite bool_decide_eq_false_2 by lia.
Qed.

Lemma compute_task_fresh db_task r s :
  analytics_report (reports s) (ObjTask db_task) = Some r →
  task_updated_date db_task ≤ created_date r →
  compute_task db_task s = (s, Ok r).
Proof.
  intros Hr Hfresh. unfold _compute_report_for_task.
  rewrite bind_M_eq, (get_or_create_Some _ _ r) by done.
  by rewrite bool_decide_eq_false_2 by lia.
Qed.

Lemma compute_project_fresh db_project r s :
  analytics_report (reports s) (ObjProject db_project) = Some r →
  project_updated_date db_project ≤ created_date r →
  compute_project db_project s = (s, Ok r).
Proof.
  intros Hr Hfresh. unfold _compute_report_for_project.
  rewrite bind_M_eq, (get_or_create_Some _ _ r) by done.
  by rewrite bool_decide_eq_false_2 by lia.
Qed.

Lemma returns_bind {A B} (R : EngineState → EngineState → Prop)
    (Q : EngineState → EngineState → B → Prop) (m : M A) (k : A → M B) :
  (∀ s1 s2 s3 b, R s1 s2 → Q s2 s3 b → Q s1 s3 b) →
  respects R true m → (∀ a, returns Q (k a)) → returns Q (m ≫= k).
Proof.
  intros HRQ Hm Hk s s' b. rewrite bind_M_eq. specialize (Hm s).
  destruct (m s) as [s1 [a|e]]; [|done].
  intros H. eapply HRQ; [done|]. by eapply Hk.
Qed.

Section Dated.
Hypothesis tick_advances : ∀ t, t ≤ tick t.

Lemma clock_advances_trans s1 s2 s3 :
  clock_advances s1 s2 → clock_advances s2 s3 → clock_advances s1 s3.
Proof. unfold clock_advances. lia. Qed.

Lemma clock_advances_entry m : respects clock_advances true (statistics_entry m).
Proof. apply frame_entry. intros s l. unfold clock_advances. simpl. lia. Qed.

Lemma clock_advances_save obj stats : respects clock_advances true (save tick obj stats).
Proof. intros s. unfold clock_advances. simpl. apply tick_advances. Qed.

Lemma stored_and_dated_later obj s1 s2 s3 r :
  clock_advances s1 s2 → stored_and_dated obj s2 s3 r → stored_and_dated obj s1 s3 r.
Proof. unfold clock_advances, stored_and_dated. intros ? [? ?]. split; [done|lia]. Qed.

Lemma returns_save obj stats : returns (stored_and_dated obj) (save tick obj stats).
Proof.
  intros s s' r [= <- <-]. split; simpl; [apply analytics_report_set_report|lia].
Qed.

Lemma clock_advances_compute_job db_job : respects clock_advances true (compute_job db_job).
Proof.
  apply respects_compute_job.
  - intros s. unfold clock_advances. lia.
  - apply clock_advances_trans.
  - apply clock_advances_entry.
  - intros. apply clock_advances_save.
Qed.

Lemma clock_advances_compute_task db_task : respects clock_advances true (compute_task db_task).
Proof.
  apply respects_compute_task.
  - intros s. unfold clock_advances. lia.
  - apply clock_advances_trans.
  - apply clock_advances_entry.
  - intros. apply clock_advances_save.
  - intros. apply clock_advances_save.
Qed.

Ltac returns_steps :=
  repeat
    (cbv zeta;
     match goal with
     | |- returns _ (save _ _ _) => apply returns_save
     | |- returns _ (_ ≫= _) =>
         apply (returns_bind clock_advances); [apply stored_and_dated_later| |intros ?]
     | |- respects _ _ (_get_statistics_entry _ _ _ _ _ _ _) => apply clock_advances_entry
     | |- respects _ _ (lift _) => apply respects_lift; intros ?; unfold clock_advances; lia
     | |- respects _ _ (aggregate _ _ _ _ _ _ _ _ _ _ _ _ _ _) =>
         apply respects_aggregate;
         [intros ?; unfold clock_advances; lia|apply clock_advances_trans
         |apply clock_advances_entry]
     | |- respects _ _ (for_each _ _) =>
         apply respects_for_each;
         [intros ?; unfold clock_advances; lia|apply clock_advances_trans|intros ?]
     | |- respects _ _ (_ ≫= _) =>
         apply respects_bind; [apply clock_advances_trans| |intros ?]
     | |- respects _ _ (refresh_from_db _) =>
         apply respects_refresh; intros ?; unfold clock_advances; lia
     | |- respects _ _ (_compute_report_for_job _ _ _ _ _ _ _ _) =>
         apply clock_advances_compute_job
     | |- respects _ _ (_compute_report_for_task _ _ _ _ _ _ _ _ _ _) =>
         apply clock_advances_compute_task
     end).

Lemma get_or_create_spec obj s s1 r created :
  get_or_create tick obj s = (s1, Ok (r, created)) →
  analytics_report (reports s1) obj = Some r
  ∧ clock s ≤ clock s1
  ∧ (created = false → s1 = s).
Proof.
  destruct (analytics_report (reports s) obj) as [r0|] eqn:E.
  - rewrite (get_or_create_Some _ _ r0) by done. intros [= <- <- <-].
    split_and!; [done|lia|done].
  - rewrite get_or_create_None by done. intros [= <- <- <-].
    split_and!; [apply analytics_report_set_report| |done].
    simpl. pose proof (tick_advances (clock s)). pose proof (tick_advances (tick (clock s))).
    lia.
Qed.

(** The part common to the three levels: the outcome of the branch on the
    staleness, given what the recomputation returns. *)
Lemma returned_report_is_stored obj updated_date (body : M AnalyticsReport) s s' r :
  returns (stored_and_dated obj) body →
  updated_date ≤ clock s →
  (x ← get_or_create tick obj;
   let '(db_report, was_created) := x in
   if bool_decide (created_date db_report < updated_date) || was_created
   then body else mret db_report) s = (s', Ok r) →
  analytics_report (reports s') obj = Some r ∧ updated_date ≤ created_date r.
Proof.
  intros Hbody Hclock. rewrite bind_M_eq.
  destruct (get_or_create_returns tick obj s) as (s1 & [db_report was_created] & Hg & _).
  rewrite Hg. destruct (get_or_create_spec _ _ _ _ _ Hg) as (Hstored & Hs1 & Hsame).
  case_bool_decide as Hstale; simpl.
  - intros [Hr Hdate]%Hbody. split; [done|lia].
  - destruct was_created.
    + intros [Hr Hdate]%Hbody. split; [done|lia].
    + intros [= <- <-]. split; [done|lia].
Qed.

(** X11.  When the computation of the report of a job, of a task or of a
    project returns, started no earlier than the last update of the entity
    and with a clock that does not go back, the report it returns is the
    stored report of the entity, it is not older than the update, and a
    second computation right after it returns the same report and changes
    nothing: no save and no [calculate()]. *)
Theorem returned_report_is_fresh s s' r :
  (∀ db_job,
     compute_job db_job s = (s', Ok r) →
     job_updated_date db_job ≤ clock s →
     analytics_report (reports s') (ObjJob db_job) = Some r
     ∧ job_updated_date db_job ≤ created_date r
     ∧ compute_job db_job s' = (s', Ok r))
  ∧ (∀ db_task,
       compute_task db_task s = (s', Ok r) →
       task_updated_date db_task ≤ clock s →
       analytics_report (reports s') (ObjTask db_task) = Some r
       ∧ task_updated_date db_task ≤ created_date r
       ∧ compute_task db_task s' = (s', Ok r))
  ∧ (∀ db_project,
       compute_project db_project s = (s', Ok r) →
       project_updated_date db_project ≤ clock s →
       analytics_report (reports s') (ObjProject db_project) = Some r
       ∧ project_updated_date db_project ≤ created_date r
       ∧ compute_project db_project s' = (s', Ok r)).
Proof.
  split_and!.
  - intros db_job Hrun Hclock.
    assert (analytics_report (reports s') (ObjJob db_job) = Some r
            ∧ job_updated_date db_job ≤ created_date r) as [Hr Hdate].
    { revert Hrun. unfold _compute_report_for_job, get_or_create.
      match goal with
      | |- (_ ≫= λ '(db_report, was_created), if _ then ?body else _) _ = _ → _ =>
          intros Hrun; apply (returned_report_is_stored _ _ body s s' r); [|done|exact Hrun]
      end.
      returns_steps. }
    split_and!; [done..|]. by apply compute_job_fresh.
  - intros db_task Hrun Hclock.
    assert (analytics_report (reports s') (ObjTask db_task) = Some r
            ∧ task_updated_date db_task ≤ created_date r) as [Hr Hdate].
    { revert Hrun. unfold _compute_report_for_task, get_or_create.
      match goal with
      | |- (_ ≫= λ '(db_report, was_created), if _ then ?body else _) _ = _ → _ =>
          intros Hrun; apply (returned_report_is_stored _ _ body s s' r); [|done|exact Hrun]
      end.
      returns_steps. }
    split_and!; [done..|]. by apply compute_task_fresh.
  - intros db_project Hrun Hclock.
    assert (analytics_report (reports s') (ObjProject db_project) = Some r
            ∧ project_updated_date db_project ≤ created_date r) as [Hr Hdate].
    { revert Hrun. unfold _compute_report_for_project, get_or_create.
      match goal with
      | |- (_ ≫= λ '(db_report, was_created), if _ then ?body else _) _ = _ → _ =>
          intros Hrun; apply (returned_report_is_stored _ _ body s s' r); [|done|exact Hrun]
      end.
      returns_steps. }
    split_and!; [done..|]. by apply compute_project_fresh.
Qed.
End Dated.

(** *** Recomputation *)

(** What [get_or_create] leaves for an entity whose report is missing or
    older than [updated_date]: the recomputation is due, nothing was
    calculated, and the reports of the other levels are as before. *)
Lemma get_or_create_due obj updated_date s :
  match analytics_report (reports s) obj with
  | Some r0 => created_date r0 < updated_date
  | None => True
  end →
  ∃ s1 db_report was_created,
    get_or_create tick obj s = (s1, Ok (db_report, was_created))
    ∧ bool_decide (created_date db_report < updated_date) || was_created = true
    ∧ calculated s1 = calculated s
    ∧ (job_reports (reports s1) = job_reports (reports s) ∨ is_task obj = false ∧ ∃ j, obj = ObjJob j)
    ∧ (task_reports (reports s1) = task_reports (reports s) ∨ is_task obj = true)
    ∧ match analytics_report (reports s) obj with
      | Some r0 => s1 = s
      | None =>
          analytics_report (reports s1) obj
          = Some {| created_date := tick (clock s); statistics := ∅ |}
          ∧ clock s1 = tick (tick (clock s))
      end.
Proof.
  destruct (analytics_report (reports s) obj) as [r0|] eqn:E; intros Hdue.
  - exists s, r0, false. rewrite (get_or_create_Some _ _ r0) by done.
    split_and!; try done; [by rewrite bool_decide_eq_true_2|by left..].
  - eexists _, _, true. rewrite get_or_create_None by done.
    split_and!; try done.
    + apply orb_true_r.
    + destruct obj; simpl; eauto.
    + destruct obj; simpl; eauto.
    + simpl. apply analytics_report_set_report.
Qed.

(** X12.  The recomputation of a job whose report is older than its last
    update replaces the statistics of the report by the five entries just
    computed, whatever it held, dates it by the one save, and changes no
    other report. *)
Theorem stale_job_report_is_replaced s db_job r0 d_objects d_speed d_time d_total_speed
    d_total_count :
  let metric c input :=
    {| metric_class := c; metric_obj := ObjJob db_job; metric_input := input |} in
  let primary := PrimaryStatistics (entry_of JobAnnotationSpeed d_speed) in
  analytics_report (reports s) (ObjJob db_job) = Some r0 →
  created_date r0 < job_updated_date db_job →
  calculate (metric JobObjects NoStatistics) = Ok d_objects →
  calculate (metric JobAnnotationSpeed NoStatistics) = Ok d_speed →
  calculate (metric JobAnnotationTime NoStatistics) = Ok d_time →
  calculate (metric JobTotalAnnotationSpeed primary) = Ok d_total_speed →
  calculate (metric JobTotalObjectCount primary) = Ok d_total_count →
  let stats : gmap string StatisticsEntry :=
    <["total_object_count" := entry_of JobTotalObjectCount d_total_count]>
      (<["total_annotation_speed" := entry_of JobTotalAnnotationSpeed d_total_speed]>
         (<["annotation_time" := entry_of JobAnnotationTime d_time]>
            (<["annotation_speed" := entry_of JobAnnotationSpeed d_speed]>
               (<["objects" := entry_of JobObjects d_objects]> ∅)))) in
  let report := {| created_date := clock s; statistics := stats |} in
  compute_job db_job s
  = ({| reports := set_report (ObjJob db_job) report (reports s);
        clock := tick (clock s);
        calculated :=
          calculated s ++
          [metric JobObjects NoStatistics; metric JobAnnotationSpeed NoStatistics;
           metric JobAnnotationTime NoStatistics; metric JobTotalAnnotationSpeed primary;
           metric JobTotalObjectCount primary] |},
     Ok report).
Proof.
  intros metric primary Hr0 Hstale H1 H2 H3 H4 H5 stats report.
  unfold _compute_report_for_job.
  rewrite bind_M_eq, (get_or_create_Some _ _ r0) by done.
  rewrite bool_decide_eq_true_2 by done. rewrite orb_false_r.
  rewrite bind_M_eq, (statistics_entry_Ok _ _ _ _ _ _ _ _ _ H1).
  rewrite bind_M_eq, (statistics_entry_Ok _ _ _ _ _ _ _ _ _ H2).
  rewrite bind_M_eq, (statistics_entry_Ok _ _ _ _ _ _ _ _ _ H3).
  rewrite bind_M_eq. unfold lift at 1. rewrite primary_annotation_speed.
  rewrite bind_M_eq. unfold lift at 1.
  rewrite bind_M_eq, (statistics_entry_Ok _ _ _ _ _ _ _ _ _ H4).
  rewrite bind_M_eq, (statistics_entry_Ok _ _ _ _ _ _ _ _ _ H5).
  unfold save. simpl. rewrite <-!app_assoc. reflexivity.
Qed.

Local Abbreviation fresh_in s :=
  (λ (db_job : Job) (jr : AnalyticsReport),
     job_reports (reports s) !! job_id db_job = Some jr
     ∧ job_updated_date db_job ≤ created_date jr).

Lemma for_each_fresh l rs s :
  Forall2 (fresh_in s) l rs → for_each compute_job l s = (s, Ok rs).
Proof.
  induction 1 as [|db_job jr l rs [Hjr Hfresh] _ IH]; [done|].
  simpl. rewrite bind_M_eq, (compute_job_fresh db_job jr) by done.
  rewrite bind_M_eq, IH. done.
Qed.

Lemma entries_of_missing key (rs : list AnalyticsReport) jr :
  jr ∈ rs → statistics jr !! key = None → entries_of key rs = Raise (KeyError key).
Proof.
  intros Hin Hnone. induction rs as [|r rs IH]; [inversion Hin|].
  simpl. unfold getitem. destruct (statistics r !! key) as [e|] eqn:E; simpl; [|done].
  apply elem_of_cons in Hin as [->|Hin]; [congruence|]. by rewrite IH.
Qed.

Lemma aggregate_Ok c1 c2 c3 c4 c5 first o rs l_objects l_speed l_time d1 d2 d3 d4 d5 s :
  let metric c obj l :=
    {| metric_class := c; metric_obj := obj; metric_input := ReportStatistics l |} in
  entries_of "objects" rs = Ok l_objects →
  entries_of "annotation_speed" rs = Ok l_speed →
  entries_of "annotation_time" rs = Ok l_time →
  calculate (metric c1 first l_objects) = Ok d1 →
  calculate (metric c2 o l_speed) = Ok d2 →
  calculate (metric c3 o l_time) = Ok d3 →
  calculate (metric c4 o l_speed) = Ok d4 →
  calculate (metric c5 o l_speed) = Ok d5 →
  aggregate_of c1 c2 c3 c4 c5 first (Ok o) rs s
  = ({| reports := reports s; clock := clock s;
        calculated :=
          calculated s ++
          [metric c1 first l_objects; metric c2 o l_speed; metric c3 o l_time;
           metric c4 o l_speed; metric c5 o l_speed] |},
     Ok (<["total_object_count" := entry_of c5 d5]>
           (<["total_annotation_speed" := entry_of c4 d4]>
              (<["annotation_time" := entry_of c3 d3]>
                 (<["annotation_speed" := entry_of c2 d2]>
                    (<["objects" := entry_of c1 d1]> ∅)))))).
Proof.
  intros metric Ho Hs Ht H1 H2 H3 H4 H5. unfold aggregate.
  rewrite Ho, Hs, Ht. unfold lift.
  repeat (rewrite bind_M_eq; cbv beta iota).
  rewrite (statistics_entry_Ok _ _ _ _ _ _ _ _ _ H1).
  rewrite bind_M_eq, (statistics_entry_Ok _ _ _ _ _ _ _ _ _ H2).
  rewrite bind_M_eq, (statistics_entry_Ok _ _ _ _ _ _ _ _ _ H3).
  rewrite bind_M_eq, (statistics_entry_Ok _ _ _ _ _ _ _ _ _ H4).
  rewrite bind_M_eq, (statistics_entry_Ok _ _ _ _ _ _ _ _ _ H5).
  simpl. rewrite <-!app_assoc. reflexivity.
Qed.

(** X13.  The recomputation of a task whose jobs all have reports that are
    not older than their updates recomputes no job: it calculates the five
    metrics of the task, [objects], [annotation_speed] and [annotation_time]
    over the entries of those names of the job reports in the order of the
    jobs and both totals over the [annotation_speed] entries, stores the five
    entries as the report of the task and leaves the job reports as they
    were. *)
Theorem task_aggregates_its_job_reports s db_task rs l_objects l_speed l_time d1 d2 d3 d4 d5 :
  let metric c l :=
    {| metric_class := c; metric_obj := ObjTask db_task;
       metric_input := ReportStatistics l |} in
  match analytics_report (reports s) (ObjTask db_task) with
  | Some r0 => created_date r0 < task_updated_date db_task
  | None => True
  end →
  Forall2 (fresh_in s) (jobs_of segment_set job_set db_task) rs →
  entries_of "objects" rs = Ok l_objects →
  entries_of "annotation_speed" rs = Ok l_speed →
  entries_of "annotation_time" rs = Ok l_time →
  calculate (metric TaskObjects l_objects) = Ok d1 →
  calculate (metric TaskAnnotationSpeed l_speed) = Ok d2 →
  calculate (metric TaskAnnotationTime l_time) = Ok d3 →
  calculate (metric TaskTotalAnnotationSpeed l_speed) = Ok d4 →
  calculate (metric TaskTotalObjectCount l_speed) = Ok d5 →
  ∃ s' report,
    compute_task db_task s = (s', Ok report)
    ∧ analytics_report (reports s') (ObjTask db_task) = Some report
    ∧ statistics report
      = <["total_object_count" := entry_of TaskTotalObjectCount d5]>
          (<["total_annotation_speed" := entry_of TaskTotalAnnotationSpeed d4]>
             (<["annotation_time" := entry_of TaskAnnotationTime d3]>
                (<["annotation_speed" := entry_of TaskAnnotationSpeed d2]>
                   (<["objects" := entry_of TaskObjects d1]> ∅))))
    ∧ calculated s'
      = calculated s ++
        [metric TaskObjects l_objects; metric TaskAnnotationSpeed l_speed;
         metric TaskAnnotationTime l_time; metric TaskTotalAnnotationSpeed l_speed;
         metric TaskTotalObjectCount l_speed]
    ∧ job_reports (reports s') = job_reports (reports s).
Proof.
  intros metric Hdue Hfresh Ho Hs Ht H1 H2 H3 H4 H5.
  destruct (get_or_create_due (ObjTask db_task) _ s Hdue)
    as (s1 & db_report & was_created & Hg & Hflag & Hlog & [Hjobs|[[=] _]] & _ & _).
  assert (Forall2 (fresh_in s1) (jobs_of segment_set job_set db_task) rs) as Hfresh1.
  { eapply Forall2_impl; [exact Hfresh|]. intros j jr. simpl. by rewrite Hjobs. }
  unfold _compute_report_for_task. rewrite bind_M_eq, Hg, Hflag.
  rewrite bind_M_eq, (for_each_fresh _ _ _ Hfresh1).
  rewrite bind_M_eq, (aggregate_Ok _ _ _ _ _ _ _ _ _ _ _ _ _ _ _ _ _ Ho Hs Ht H1 H2 H3 H4 H5).
  eexists _, _. split_and!; [reflexivity|..]; simpl.
  - apply lookup_insert_eq.
  - reflexivity.
  - by rewrite Hlog.
  - done.
Qed.

(** X14.  When every job of the task has a report that is not older than
    its update, so that no job is recomputed, and one of these reports
    lacks the [objects] entry, as the empty report that a failed first
    computation leaves, the recomputation of the task raises [KeyError] for
    [objects] before any metric is calculated, and the job reports are as
    they were. *)
Theorem task_raises_on_job_report_without_entries s db_task rs jr :
  match analytics_report (reports s) (ObjTask db_task) with
  | Some r0 => created_date r0 < task_updated_date db_task
  | None => True
  end →
  Forall2 (fresh_in s) (jobs_of segment_set job_set db_task) rs →
  jr ∈ rs →
  statistics jr !! "objects" = None →
  ∃ s',
    compute_task db_task s = (s', Raise (KeyError "objects"))
    ∧ calculated s' = calculated s
    ∧ job_reports (reports s') = job_reports (reports s).
Proof.
  intros Hdue Hfresh Hin Hnone.
  destruct (get_or_create_due (ObjTask db_task) _ s Hdue)
    as (s1 & db_report & was_created & Hg & Hflag & Hlog & [Hjobs|[[=] _]] & _ & _).
  assert (Forall2 (fresh_in s1) (jobs_of segment_set job_set db_task) rs) as Hfresh1.
  { eapply Forall2_impl; [exact Hfresh|]. intros j jr'. simpl. by rewrite Hjobs. }
  unfold _compute_report_for_task. rewrite bind_M_eq, Hg, Hflag.
  rewrite bind_M_eq, (for_each_fresh _ _ _ Hfresh1).
  rewrite bind_M_eq. unfold aggregate. rewrite bind_M_eq.
  rewrite (entries_of_missing _ _ _ Hin Hnone). unfold lift.
  eexists. split_and!; [reflexivity|done..].
Qed.

(** X15.  The recomputation of a project without tasks raises
    [UnboundLocalError] for [db_task] before any metric is calculated.  A
    project that had no report is left with the empty report created at the
    start, and when the project was not updated after that, the next
    computation returns this empty report as it is. *)
Theorem project_without_tasks_raises s db_project :
  tasks db_project = [] →
  match analytics_report (reports s) (ObjProject db_project) with
  | Some r0 => created_date r0 < project_updated_date db_project
  | None => True
  end →
  ∃ s',
    compute_project db_project s = (s', Raise (UnboundLocalError "db_task"))
    ∧ calculated s' = calculated s
    ∧ match analytics_report (reports s) (ObjProject db_project) with
      | Some r0 => s' = s
      | None =>
          analytics_report (reports s') (ObjProject db_project)
          = Some {| created_date := tick (clock s); statistics := ∅ |}
          ∧ (project_updated_date db_project ≤ tick (clock s) →
             compute_project db_project s'
             = (s', Ok {| created_date := tick (clock s); statistics := ∅ |}))
      end.
Proof.
  intros Hempty Hdue.
  destruct (get_or_create_due (ObjProject db_project) _ s Hdue)
    as (s1 & db_report & was_created & Hg & Hflag & Hlog & _ & _ & Hleft).
  exists s1.
  assert (compute_project db_project s = (s1, Raise (UnboundLocalError "db_task"))) as Hrun.
  { unfold _compute_report_for_project. rewrite bind_M_eq, Hg, Hflag.
    unfold db_task_after_loop. rewrite Hempty. simpl.
    rewrite bind_M_eq. unfold aggregate. simpl.
    rewrite bind_M_eq. unfold lift at 1. rewrite bind_M_eq. unfold lift at 1.
    done. }
  split_and!; [done..|].
  destruct (analytics_report (reports s) (ObjProject db_project)) as [r0|]; [done|].
  destruct Hleft as [Hleft _]. split; [done|].
  intros Hfresh. by apply compute_project_fresh.
Qed.

(** X16.  The recomputation of a project whose first task has a report
    that is not older than its update, and so is not recomputed, raises
    [AttributeError] when the first job of that task has no report: there is
    nothing to refresh.  No metric is calculated. *)
Theorem project_raises_on_job_without_report s db_project db_task ts rt db_job js :
  tasks db_project = db_task :: ts →
  jobs_of segment_set job_set db_task = db_job :: js →
  match analytics_report (reports s) (ObjProject db_project) with
  | Some r0 => created_date r0 < project_updated_date db_project
  | None => True
  end →
  analytics_report (reports s) (ObjTask db_task) = Some rt →
  task_updated_date db_task ≤ created_date rt →
  analytics_report (reports s) (ObjJob db_job) = None →
  ∃ s',
    compute_project db_project s = (s', Raise AttributeError)
    ∧ calculated s' = calculated s.
Proof.
  intros Htasks Hjobs Hdue Hrt Hfresh Hnone.
  destruct (get_or_create_due (ObjProject db_project) _ s Hdue)
    as (s1 & db_report & was_created & Hg & Hflag & Hlog & [Hj|[_ [j [=]]]] & [Ht|[=]] & _).
  exists s1. split; [|done].
  unfold _compute_report_for_project. rewrite bind_M_eq, Hg, Hflag.
  rewrite Htasks. simpl for_each.
  rewrite !bind_M_eq.
  rewrite (compute_task_fresh db_task rt) by (simpl; by rewrite ?Ht).
  rewrite Hjobs. simpl for_each. rewrite !bind_M_eq.
  unfold refresh_from_db at 1. simpl analytics_report. rewrite Hj.
  simpl in Hnone. rewrite Hnone. done.
Qed.
End EngineFurther.

(** * The jobs of the queue, run *)

Section RunQueuedJobs.
Variable ANALYTICS_CHECK_JOB_DELAY : Z.
Variable timestamp_str : Z → string.
Variable fromtimestamp_float : string → option Z.
Variable tasks : Project → list Task.
Variable segment_set : Task → list Segment.
Variable job_set : Segment → list Job.
Variable calculate : Metric → result Json.
Variable metric_title metric_description metric_granularity
  metric_default_view metric_transformations : MetricClass → Json.
Variable tick : Z → Z.
Variable Job_objects_get : Z → option Job.
Variable Task_objects_get : Z → option Task.
Variable Project_objects_get : Z → option Project.

Local Abbreviation check_job_analytics :=
  (_check_job_analytics tasks segment_set job_set calculate metric_title metric_description
     metric_granularity metric_default_view metric_transformations tick Job_objects_get
     Task_objects_get Project_objects_get).

(** X17.  The job that a call of the scheduler adds to the queue, run,
    computes the report of the target of the call, the task or the project
    of that id, and never that of a job alone; it fails before computing
    anything when the row is gone.  The job of an on-demand check for a job
    computes the report of that job, whatever task or project is given with
    it. *)
Theorem queued_job_computes_the_target db (q : gmap string RqJob) job task project now utcnow
    q' obj k rq_job :
  schedule_analytics_report_autoupdate_job ANALYTICS_CHECK_JOB_DELAY timestamp_str
    fromtimestamp_float db q job task project now utcnow = Ok q' →
  (autoupdate_target job task project).1 = Some obj →
  q !! k = None →
  q' !! k = Some rq_job →
  check_job_analytics (func_kwargs rq_job)
  = match obj with
    | ObjTask t =>
        match Task_objects_get (task_id t) with
        | Some db_task =>
            Some (db_report ←
                    _compute_report_for_task segment_set job_set calculate metric_title
                      metric_description metric_granularity metric_default_view
                      metric_transformations tick db_task;
                  mret (Some db_report))
        | None => None
        end
    | ObjProject p =>
        match Project_objects_get (project_id p) with
        | Some db_project =>
            Some (db_report ←
                    _compute_report_for_project tasks segment_set job_set calculate
                      metric_title metric_description metric_granularity
                      metric_default_view metric_transformations tick db_project;
                  mret (Some db_report))
        | None => None
        end
    | ObjJob _ => None
    end
  ∧ (∀ rq_id (db_job : Job) task' project' user_id q0,
       q0 !! rq_id = None →
       ∃ check_job,
         (schedule_analytics_check_job q0 rq_id (Some db_job) task' project' user_id).2
           !! rq_id = Some check_job
         ∧ check_job_analytics (func_kwargs check_job)
           = match Job_objects_get (job_id db_job) with
             | Some row =>
                 Some (db_report ←
                         _compute_report_for_job calculate metric_title metric_description
                           metric_granularity metric_default_view metric_transformations
                           tick row;
                       mret (Some db_report))
             | None => None
             end).
Proof.
  intros Hrun Htarget Hnone Hsome. split.
  - assert (func_kwargs rq_job = (autoupdate_target job task project).2) as ->.
    { revert Hrun. unfold schedule_analytics_report_autoupdate_job, enqueue_target.
      destruct (autoupdate_job_id _ _ _ _ _ _ _ _) as [key|e]; simpl; [|done].
      case_bool_decide; intros [= <-]; [congruence|].
      unfold enqueue_at in Hsome. rewrite lookup_insert_job in Hsome.
      case_bool_decide as Hk; [|congruence]. subst k. rewrite Hnone in Hsome.
      by injection Hsome as <-. }
    destruct (autoupdate_target_payload _ _ _ _ Htarget) as [(t & -> & ->)|(p & -> & ->)];
      reflexivity.
  - intros rq_id db_job task' project' user_id q0 Hq0.
    unfold schedule_analytics_check_job, enqueue, insert_job. simpl. rewrite Hq0.
    eexists. split; [apply lookup_insert_eq|]. reflexivity.
Qed.
End RunQueuedJobs.

(** ** The further properties on the sample data *)

Lemma job_id_timestamp_round_trip_witness :
  _get_timestamp decimal_fromtimestamp "update-analytics-report-task-1-"
    "update-analytics-report-task-1-160.0" = Ok 160000000.
Proof.
  refine (proj1 (job_id_timestamp_round_trip decimal_timestamp_str decimal_fromtimestamp
                   (ObjTask sample_task) 160000000 _ _)).
  - vm_compute. by intros [=].
  - vm_compute. reflexivity.
Defined.

Lemma malformed_job_id_raises_witness :
  ∃ e,
    _find_next_job_id sample_delay decimal_timestamp_str decimal_fromtimestamp no_reports
      {[ "update-analytics-report-task-1-soon" ]} (ObjTask sample_task) 145000000
    = Raise e.
Proof.
  destruct (malformed_job_id_raises sample_delay decimal_timestamp_str
              decimal_fromtimestamp no_reports {[ "update-analytics-report-task-1-soon" ]}
              (ObjTask sample_task) 145000000 "update-analytics-report-task-1-soon")
    as (e & Hraise & _).
  - by apply elem_of_singleton.
  - vm_compute. reflexivity.
  - vm_compute. by intros [=].
  - vm_compute. reflexivity.
  - exists e. exact Hraise.
Defined.

Lemma pending_future_job_is_reused_witness :
  schedule_analytics_report_autoupdate_job sample_delay decimal_timestamp_str
    decimal_fromtimestamp sample_reports
    {[ "update-analytics-report-task-1-160.0" := sample_window_job ]}
    None (Some sample_task) None 150000000 150000000
  = Ok {[ "update-analytics-report-task-1-160.0" := sample_window_job ]}.
Proof.
  assert (get_jobs {[ "update-analytics-report-task-1-160.0" := sample_window_job ]}
            (150000000 + _get_analytics_check_job_delay sample_delay)
          = {[ "update-analytics-report-task-1-160.0" ]}) as Hlisted.
  { unfold get_jobs. rewrite map_filter_singleton_True; [apply dom_singleton_L|].
    vm_compute. reflexivity. }
  destruct (pending_future_job_is_reused sample_delay decimal_timestamp_str
              decimal_fromtimestamp sample_reports
              {[ "update-analytics-report-task-1-160.0" := sample_window_job ]}
              None (Some sample_task) None (ObjTask sample_task) 150000000 150000000
              100000000 "update-analytics-report-task-1-160.0" 160000000)
    as (j' & t' & _ & _ & _ & _ & _ & Hrun).
  - reflexivity.
  - reflexivity.
  - rewrite Hlisted. intros j Hj _. apply elem_of_singleton in Hj. subst j.
    exists 160000000. vm_compute. reflexivity.
  - rewrite Hlisted. by apply elem_of_singleton.
  - vm_compute. reflexivity.
  - vm_compute. reflexivity.
  - lia.
  - exact Hrun.
Defined.

Lemma zero_delay_raises_witness :
  _find_next_job_id 0 decimal_timestamp_str decimal_fromtimestamp sample_reports ∅
    (ObjTask sample_task) 145000000
  = Raise ZeroDivisionError.
Proof.
  apply (zero_delay_raises 0 decimal_timestamp_str decimal_fromtimestamp sample_reports ∅
           (ObjTask sample_task) 145000000 100000000).
  - reflexivity.
  - reflexivity.
  - intros j Hj. by apply not_elem_of_empty in Hj.
Defined.

Lemma autoupdate_only_adds_one_job_witness :
  (size ({[ "update-analytics-report-task-1-160.0" := sample_window_job ]}
           : gmap string RqJob)
   ≤ S (size (∅ : gmap string RqJob)))%nat.
Proof.
  refine (proj1 (proj2 (autoupdate_only_adds_one_job sample_delay decimal_timestamp_str
                          decimal_fromtimestamp sample_reports ∅ None (Some sample_task)
                          None 145000000 145000000 _ _))).
  vm_compute. reflexivity.
Defined.

Lemma new_job_is_due_within_its_time_frame_witness :
  160000000 ≤ 145000000 + 30000000 < 160000000 + 30000000.
Proof.
  destruct (new_job_is_due_within_its_time_frame sample_delay decimal_timestamp_str
              decimal_fromtimestamp sample_reports ∅ None (Some sample_task) None
              (ObjTask sample_task) 145000000 145000000 100000000 160000000)
    as (q' & rq_job & _ & _ & _ & H).
  - unfold sample_delay. lia.
  - reflexivity.
  - reflexivity.
  - intros j Hj%get_jobs_subseteq. rewrite dom_empty_L in Hj.
    by apply not_elem_of_empty in Hj.
  - vm_compute. reflexivity.
  - lia.
  - lia.
  - lia.
  - apply lookup_empty.
  - exact H.
Defined.

Lemma prefixes_of_entities_are_apart_witness :
  obj_id (ObjTask sample_task)
  = obj_id (ObjTask {| task_id := 1; task_updated_date := 0;
                       task_project := Some sample_project |}).
Proof.
  refine (proj1 (proj2 (prefixes_of_entities_are_apart (ObjTask sample_task) _
                          "update-analytics-report-task-1-initial" _ _))).
  - vm_compute. reflexivity.
  - vm_compute. reflexivity.
Defined.

Lemma computation_deletes_no_report_witness :
  is_Some
    (analytics_report
       (reports
          (_compute_report_for_job failing_calculate sample_attribute sample_attribute
             sample_attribute sample_attribute sample_attribute Z.succ sample_job
             (job_report_state 10000000)).1)
       (ObjJob sample_job)).
Proof.
  apply (proj1 (computation_deletes_no_report sample_tasks sample_segment_set
                  sample_job_set failing_calculate sample_attribute sample_attribute
                  sample_attribute sample_attribute sample_attribute Z.succ
                  (job_report_state 10000000) (ObjJob sample_job) (mk_is_Some _ _ eq_refl))).
Defined.

Lemma returned_report_is_fresh_witness :
  _compute_report_for_job sample_calculate sample_attribute sample_attribute
    sample_attribute sample_attribute sample_attribute Z.succ sample_job
    sample_state_after_job
  = (sample_state_after_job, Ok sample_job_report).
Proof.
  refine (proj2 (proj2 (proj1 (returned_report_is_fresh sample_tasks sample_segment_set
                    sample_job_set sample_calculate sample_attribute sample_attribute
                    sample_attribute sample_attribute sample_attribute Z.succ _
                    sample_state sample_state_after_job sample_job_report)
                  sample_job _ _))).
  - intros t. lia.
  - vm_compute. reflexivity.
  - simpl. lia.
Defined.

Lemma stale_job_report_is_replaced_witness :
  (_compute_report_for_job sample_calculate sample_attribute sample_attribute
     sample_attribute sample_attribute sample_attribute Z.succ sample_job
     (job_report_state 10000000)).2
  = Ok {| created_date := 200000000; statistics := sample_statistics |}.
Proof.
  rewrite (stale_job_report_is_replaced sample_calculate sample_attribute sample_attribute
             sample_attribute sample_attribute sample_attribute Z.succ
             (job_report_state 10000000) sample_job
             {| created_date := 10000000; statistics := ∅ |}
             (JList [JNum 1]) (JList [JNum 1]) (JList [JNum 1]) (JList [JNum 1])
             (JList [JNum 1]) eq_refl ltac:(simpl; lia) eq_refl eq_refl eq_refl eq_refl
             eq_refl).
  vm_compute. reflexivity.
Defined.

Lemma task_aggregates_its_job_reports_witness :
  ∃ s' report,
    _compute_report_for_task sample_segment_set sample_job_set sample_calculate
      sample_attribute sample_attribute sample_attribute sample_attribute sample_attribute
      Z.succ sample_task sample_state_after_job
    = (s', Ok report)
    ∧ job_reports (reports s') = job_reports (reports sample_state_after_job).
Proof.
  destruct (task_aggregates_its_job_reports sample_segment_set sample_job_set
              sample_calculate sample_attribute sample_attribute sample_attribute
              sample_attribute sample_attribute Z.succ sample_state_after_job sample_task
              [sample_job_report] [sample_entry] [sample_entry] [sample_entry]
              (JList [JNum 1]) (JList [JNum 1]) (JList [JNum 1]) (JList [JNum 1])
              (JList [JNum 1]))
    as (s' & report & Hrun & _ & _ & _ & Hjobs).
  - exact I.
  - change (jobs_of sample_segment_set sample_job_set sample_task) with [sample_job].
    repeat constructor. simpl. lia.
  - vm_compute. reflexivity.
  - vm_compute. reflexivity.
  - vm_compute. reflexivity.
  - reflexivity.
  - reflexivity.
  - reflexivity.
  - reflexivity.
  - reflexivity.
  - exists s', report. split; [exact Hrun|exact Hjobs].
Defined.

Lemma task_raises_on_job_report_without_entries_witness :
  ∃ s',
    _compute_report_for_task sample_segment_set sample_job_set sample_calculate
      sample_attribute sample_attribute sample_attribute sample_attribute sample_attribute
      Z.succ sample_task (job_report_state 60000000)
    = (s', Raise (KeyError "objects")).
Proof.
  destruct (task_raises_on_job_report_without_entries sample_segment_set sample_job_set
              sample_calculate sample_attribute sample_attribute sample_attribute
              sample_attribute sample_attribute Z.succ (job_report_state 60000000)
              sample_task [{| created_date := 60000000; statistics := ∅ |}]
              {| created_date := 60000000; statistics := ∅ |})
    as (s' & Hrun & _).
  - exact I.
  - change (jobs_of sample_segment_set sample_job_set sample_task) with [sample_job].
    repeat constructor. simpl. lia.
  - apply list_elem_of_here.
  - reflexivity.
  - exists s'. exact Hrun.
Defined.

Lemma project_without_tasks_raises_witness :
  ∃ s',
    _compute_report_for_project sample_tasks sample_segment_set sample_job_set
      sample_calculate sample_attribute sample_attribute sample_attribute sample_attribute
      sample_attribute Z.succ empty_project sample_state
    = (s', Raise (UnboundLocalError "db_task")).
Proof.
  destruct (project_without_tasks_raises sample_tasks sample_segment_set sample_job_set
              sample_calculate sample_attribute sample_attribute sample_attribute
              sample_attribute sample_attribute Z.succ sample_state empty_project)
    as (s' & Hrun & _).
  - reflexivity.
  - exact I.
  - exists s'. exact Hrun.
Defined.

Lemma project_raises_on_job_without_report_witness :
  ∃ s',
    _compute_report_for_project sample_tasks sample_segment_set sample_job_set
      sample_calculate sample_attribute sample_attribute sample_attribute sample_attribute
      sample_attribute Z.succ sample_project task_report_state
    = (s', Raise AttributeError).
Proof.
  destruct (project_raises_on_job_without_report sample_tasks sample_segment_set
              sample_job_set sample_calculate sample_attribute sample_attribute
              sample_attribute sample_attribute sample_attribute Z.succ task_report_state
              sample_project sample_project_task [] 
              {| created_date := 60000000; statistics := ∅ |} sample_project_job [])
    as (s' & Hrun & _).
  - reflexivity.
  - reflexivity.
  - exact I.
  - reflexivity.
  - simpl. lia.
  - reflexivity.
  - exists s'. exact Hrun.
Defined.

Lemma queued_job_computes_the_target_witness :
  is_Some
    (_check_job_analytics sample_tasks sample_segment_set sample_job_set sample_calculate
       sample_attribute sample_attribute sample_attribute sample_attribute sample_attribute
       Z.succ sample_Job_get sample_Task_get sample_Project_get
       (func_kwargs sample_window_job)).
Proof.
  assert (schedule_analytics_report_autoupdate_job sample_delay decimal_timestamp_str
            decimal_fromtimestamp sample_reports ∅ None (Some sample_task) None
            145000000 145000000
          = Ok {[ "update-analytics-report-task-1-160.0" := sample_window_job ]}) as Hrun
    by (vm_compute; reflexivity).
  pose proof (proj1 (queued_job_computes_the_target sample_delay decimal_timestamp_str
                       decimal_fromtimestamp sample_tasks sample_segment_set sample_job_set
                       sample_calculate sample_attribute sample_attribute sample_attribute
                       sample_attribute sample_attribute Z.succ sample_Job_get
                       sample_Task_get sample_Project_get sample_reports ∅ None
                       (Some sample_task) None 145000000 145000000
                       {[ "update-analytics-report-task-1-160.0" := sample_window_job ]}
                       (ObjTask sample_task) "update-analytics-report-task-1-160.0"
                       sample_window_job Hrun eq_refl
                       (lookup_empty _) (lookup_singleton_eq _ _))) as H.
  rewrite H. eexists. reflexivity.
Defined.
